(** * app/main.py: a task service over SQLite, with request metrics

    A shallow embedding of [src/app/main.py].  The module is a script: it
    builds a FastAPI application object, registers a startup hook, one HTTP
    middleware and five routes on it, and finally rebinds the global name
    [app] to a second, fresh application object.

    What the script delegates to its libraries is modelled as far as the
    handlers observe it:
    - SQLite (module [sqlite3]): one table [tasks] with an AUTOINCREMENT
      primary key, per-connection transactions made durable by [commit],
      64-bit INTEGER parameters, and statements that may raise;
    - Starlette/FastAPI: routing on method and path, path and body
      validation, the translation of [HTTPException] and validation errors
      into responses, the order of the middleware stack;
    - prometheus_client and logging: a labelled counter, a labelled
      histogram and a list of emitted log lines.

    Python strings are [string], each holding the UTF-8 encoding of its
    text, so that a character may take several bytes and [len] counts
    characters; Python integers are [Z]; the readings of
    [time.perf_counter] are rationals. *)

From Stdlib Require Import ZArith QArith Lia Ascii String DecimalString DecimalZ.
From Stdlib Require Import Sorted Permutation.
From stdpp Require Import gmap strings list fin_maps.

Local Open Scope Z_scope.

(** ** Values *)

(** A row of [tasks]: the four columns of the CREATE TABLE statement. *)
Record Row := mkRow {
  id : Z;
  title : string;
  done : Z;
  created_at : string
}.

(** The table together with its entry in [sqlite_sequence], the largest
    rowid the table has ever held (what AUTOINCREMENT consults). *)
Record Table := mkTable {
  rows : list Row;
  seq : Z
}.

(** The database file at [DB_PATH]: [None] while [tasks] does not exist. *)
Definition Database : Type := option Table.

(** JSON values, for the dictionaries and lists the handlers return. *)
#[local] Unset Elimination Schemes.
Inductive Json :=
| JNull
| JInt (n : Z)
| JStr (s : string)
| JArr (xs : list Json)
| JObj (members : list (string * Json)).
#[local] Set Elimination Schemes.

(** Exceptions the script can meet. *)
Inductive Exn :=
| OperationalError (msg : string)
| ProgrammingError (msg : string)
| OverflowError (msg : string)
| TypeError (msg : string)
| HTTPException (status_code : Z) (detail : string)
| RequestValidationError (errors : list string).

Inductive Outcome (A : Type) :=
| Return (a : A)
| Raise (e : Exn).
Arguments Return {A} a.
Arguments Raise {A} e.

(** ** The world the script runs in *)

(** The store: the committed database, the open connection handles (each
    with its uncommitted view of the database, if it has written), the
    number of handles handed out so far, and the schedule of failures:
    the next store call raises when the head of [faults] is [true]. *)
Record Store := mkStore {
  disk : Database;
  conns : gmap nat (option Database);
  opened : nat;
  faults : list bool
}.

(** [REQ_COUNT] and [REQ_LAT]: per label tuple, the count and the
    observations made. *)
Record Registry := mkRegistry {
  REQ_COUNT : gmap (string * string * string) N;
  REQ_LAT : gmap (string * string) (list Q)
}.

Record World := mkWorld {
  store : Store;
  registry : Registry;
  log : list string;           (* lines given to log.info, oldest first *)
  perf_counter : list Q;       (* the coming readings of time.perf_counter *)
  now : string                 (* what datetime('now') evaluates to *)
}.

Definition set_store (s : Store) (w : World) : World :=
  mkWorld s (registry w) (log w) (perf_counter w) (now w).
Definition set_registry (r : Registry) (w : World) : World :=
  mkWorld (store w) r (log w) (perf_counter w) (now w).
Definition set_log (l : list string) (w : World) : World :=
  mkWorld (store w) (registry w) l (perf_counter w) (now w).
Definition set_perf_counter (p : list Q) (w : World) : World :=
  mkWorld (store w) (registry w) (log w) p (now w).

Definition set_disk (d : Database) (s : Store) : Store :=
  mkStore d (conns s) (opened s) (faults s).
Definition set_conns (c : gmap nat (option Database)) (s : Store) : Store :=
  mkStore (disk s) c (opened s) (faults s).
Definition set_faults (f : list bool) (s : Store) : Store :=
  mkStore (disk s) (conns s) (opened s) f.

(** ** Computations: state passing with exceptions *)

Definition M (A : Type) : Type := World -> World * Outcome A.

Definition ret {A} (a : A) : M A := fun w => (w, Return a).
Definition raise {A} (e : Exn) : M A := fun w => (w, Raise e).
Definition bind {A B} (c : M A) (k : A -> M B) : M B :=
  fun w =>
    match c w with
    | (w', Return a) => k a w'
    | (w', Raise e) => (w', Raise e)
    end.

Notation "x <- c ;; k" := (bind c (fun x => k))
  (at level 100, c at next level, right associativity).
Notation "c ;;; k" := (bind c (fun _ => k))
  (at level 100, right associativity).

(** ** sqlite3 *)

Definition max_rowid : Z := 9223372036854775807.
Definition min_rowid : Z := -9223372036854775808.

(** A store call consumes one entry of the failure schedule. *)
Definition store_call : M unit :=
  fun w =>
    match faults (store w) with
    | true :: fs =>
        (set_store (set_faults fs (store w)) w,
         Raise (OperationalError "database is locked"))
    | false :: fs => (set_store (set_faults fs (store w)) w, Return tt)
    | [] => (w, Return tt)
    end.

(** Binding a Python integer to a [?] placeholder: SQLite INTEGER is a
    signed 64-bit value and the binding refuses anything else. *)
Definition bind_int (n : Z) : M Z :=
  if (min_rowid <=? n) && (n <=? max_rowid)
  then ret n
  else raise (OverflowError "Python int too large to convert to SQLite INTEGER").

(** [connect()]: a fresh handle with no transaction open. *)
Definition connect : M nat :=
  store_call ;;;
  fun w =>
    let s := store w in
    (set_store (mkStore (disk s) (<[opened s := None]> (conns s))
                        (S (opened s)) (faults s)) w,
     Return (opened s)).

(** What a connection sees: its own uncommitted view, else the disk. *)
Definition view (con : nat) : M Database :=
  fun w =>
    match conns (store w) !! con with
    | Some (Some d) => (w, Return d)
    | Some None => (w, Return (disk (store w)))
    | None => (w, Raise (ProgrammingError "Cannot operate on a closed database."))
    end.

(** A writing statement leaves its result in the connection's transaction. *)
Definition write (con : nat) (d : Database) : M unit :=
  fun w =>
    (set_store (set_conns (<[con := Some d]> (conns (store w))) (store w)) w,
     Return tt).

(** The statements of the script address [tasks]; preparing one fails
    while the table does not exist. *)
Definition tasks_table (con : nat) : M Table :=
  d <- view con ;;
  match d with
  | Some t => ret t
  | None => raise (OperationalError "no such table: tasks")
  end.

(** [con.commit()] *)
Definition commit (con : nat) : M unit :=
  store_call ;;;
  fun w =>
    match conns (store w) !! con with
    | Some (Some d) =>
        (set_store (set_disk d (set_conns (<[con := None]> (conns (store w)))
                                          (store w))) w,
         Return tt)
    | Some None => (w, Return tt)
    | None => (w, Raise (ProgrammingError "Cannot operate on a closed database."))
    end.

(** [con.close()]: the handle is released; what it had not committed is
    rolled back. *)
Definition close (con : nat) : M unit :=
  fun w =>
    (set_store (set_conns (delete con (conns (store w))) (store w)) w,
     Return tt).

(** [SELECT 1] *)
Definition execute_select_1 (con : nat) : M unit :=
  view con ;;;
  store_call.

(** A statement on the schema does not open a transaction: unless the
    connection has one open already, it takes effect at once. *)
Definition write_schema (con : nat) (d : Database) : M unit :=
  fun w =>
    match conns (store w) !! con with
    | Some (Some _) => write con d w
    | _ => (set_store (set_disk d (store w)) w, Return tt)
    end.

(** [CREATE TABLE IF NOT EXISTS tasks (...)] *)
Definition execute_create_table (con : nat) : M unit :=
  d <- view con ;;
  store_call ;;;
  match d with
  | Some _ => ret tt
  | None => write_schema con (Some (mkTable [] 0))
  end.

(** [ORDER BY id DESC]: insertion into a list kept in descending order. *)
Fixpoint insert_desc (r : Row) (l : list Row) : list Row :=
  match l with
  | [] => [r]
  | x :: l' => if id x <=? id r then r :: l else x :: insert_desc r l'
  end.

Fixpoint order_by_id_desc (l : list Row) : list Row :=
  match l with
  | [] => []
  | r :: l' => insert_desc r (order_by_id_desc l')
  end.

(** [SELECT id,title,done,created_at FROM tasks ORDER BY id DESC], fetchall *)
Definition execute_select_all (con : nat) : M (list Row) :=
  t <- tasks_table con ;;
  store_call ;;;
  ret (order_by_id_desc (rows t)).

(** The largest rowid in the table (0 for an empty one). *)
Fixpoint max_id (l : list Row) : Z :=
  match l with
  | [] => 0
  | r :: l' => Z.max (id r) (max_id l')
  end.

(** [INSERT INTO tasks(title, done, created_at) VALUES(?,?,datetime('now'))]
    with parameters [(title, 0)]; the result is [cur.lastrowid].
    AUTOINCREMENT takes one more than the largest rowid ever used and
    fails once that is the largest 64-bit integer. *)
Definition datetime_now : M string :=
  fun w => (w, Return (now w)).

Definition execute_insert (con : nat) (ttl : string) : M Z :=
  t <- tasks_table con ;;
  store_call ;;;
  let last := Z.max (seq t) (max_id (rows t)) in
  if max_rowid <=? last
  then raise (OperationalError "database or disk is full")
  else
    stamp <- datetime_now ;;
    write con (Some (mkTable (rows t ++ [mkRow (last + 1) ttl 0 stamp]) (last + 1))) ;;;
    ret (last + 1).

(** [UPDATE tasks SET done=1 WHERE id=?]; the result is [cur.rowcount]. *)
Definition set_done (task_id : Z) (r : Row) : Row :=
  if id r =? task_id then mkRow (id r) (title r) 1 (created_at r) else r.

Definition rowcount (task_id : Z) (l : list Row) : nat :=
  length (filter (fun r => id r = task_id) l).

Definition execute_update_done (con : nat) (task_id : Z) : M nat :=
  t <- tasks_table con ;;
  i <- bind_int task_id ;;
  store_call ;;;
  write con (Some (mkTable (map (set_done i) (rows t)) (seq t))) ;;;
  ret (rowcount i (rows t)).

(** [SELECT id,title,done,created_at FROM tasks WHERE id=?], fetchone *)
Definition execute_select_by_id (con : nat) (task_id : Z) : M (option Row) :=
  t <- tasks_table con ;;
  i <- bind_int task_id ;;
  store_call ;;;
  ret (head (filter (fun r => id r = i) (rows t))).

(** [dict(row)]; [fetchone] gives [None] when nothing matched, and
    [dict(None)] raises. *)
Definition dict_of_row (r : Row) : Json :=
  JObj [("id", JInt (id r)); ("title", JStr (title r));
        ("done", JInt (done r)); ("created_at", JStr (created_at r))].

Definition dict (row : option Row) : M Json :=
  match row with
  | Some r => ret (dict_of_row r)
  | None => raise (TypeError "'NoneType' object is not iterable")
  end.

(** ** HTTP messages *)

(** A request: its method, the path of its URL, and of its JSON body the
    one member a handler reads, [title]: any JSON value, or [None] when
    the body has no such member. *)
Record Request := mkRequest {
  method : string;
  path : string;
  body_title : option Json
}.

Inductive Content :=
| JSON (j : Json)
| PlainText (s : string)
| Exposition (r : Registry)      (* generate_latest() of this registry *)
| Redirect (location : string)
| Page (name : string).          (* a documentation page of the framework *)

Record Response := mkResponse {
  status_code : Z;
  content : Content
}.

(** ** Logging, metrics, clock *)

Definition time_perf_counter : M Q :=
  fun w =>
    match perf_counter w with
    | t :: ts => (set_perf_counter ts w, Return t)
    | [] => (w, Return 0%Q)
    end.

(** [REQ_COUNT.labels(...).inc()] *)
Definition REQ_COUNT_inc (labels : string * string * string) : M unit :=
  fun w =>
    let r := registry w in
    (set_registry
       (mkRegistry (<[labels := N.succ (default 0%N (REQ_COUNT r !! labels))]> (REQ_COUNT r))
                   (REQ_LAT r)) w,
     Return tt).

(** [REQ_LAT.labels(...).observe(duration)] *)
Definition REQ_LAT_observe (labels : string * string) (duration : Q) : M unit :=
  fun w =>
    let r := registry w in
    (set_registry
       (mkRegistry (REQ_COUNT r)
                   (<[labels := default [] (REQ_LAT r !! labels) ++ [duration]]> (REQ_LAT r))) w,
     Return tt).

Definition log_info (line : string) : M unit :=
  fun w => (set_log (log w ++ [line]) w, Return tt).

(** [str(n)] and [int(x)] *)
Definition str (n : Z) : string := NilZero.string_of_int (Z.to_int n).
Definition int (x : Q) : Z := Z.quot (Qnum x) (Zpos (Qden x)).

Definition dq : string := String "034"%char EmptyString.
Definition quoted (s : string) : string := dq +:+ s +:+ dq.

(** The f-string of the two [log.info] calls. *)
Definition request_line (meth pth : string) (status : Z) (duration : Q) : string :=
  "{" +:+ quoted "event" +:+ ":" +:+ quoted "request" +:+ ","
      +:+ quoted "method" +:+ ":" +:+ quoted meth +:+ ","
      +:+ quoted "path" +:+ ":" +:+ quoted pth +:+ ","
      +:+ quoted "status" +:+ ":" +:+ str status +:+ ","
      +:+ quoted "duration_ms" +:+ ":" +:+ str (int (duration * 1000)%Q) +:+ "}".

(** ** The functions of the script *)

Definition APP_NAME : string := "devops-fastapi".

(** [class TaskCreate(BaseModel)] *)
Record TaskCreate := mkTaskCreate {
  payload_title : string
}.

Definition init_db : M unit :=
  con <- connect ;;
  execute_create_table con ;;;
  commit con ;;;
  close con.

Definition startup : M unit := init_db.

Definition observability_mw (request : Request) (call_next : Request -> M Response)
  : M Response :=
  start <- time_perf_counter ;;
  fun w =>
    match call_next request w with
    | (w1, Raise e) =>
        (stop <- time_perf_counter ;;
         let duration := (stop - start)%Q in
         REQ_COUNT_inc (method request, path request, "500"%string) ;;;
         REQ_LAT_observe (method request, path request) duration ;;;
         log_info (request_line (method request) (path request) 500 duration) ;;;
         raise e) w1
    | (w1, Return response) =>
        (stop <- time_perf_counter ;;
         let duration := (stop - start)%Q in
         REQ_COUNT_inc (method request, path request, str (status_code response)) ;;;
         REQ_LAT_observe (method request, path request) duration ;;;
         log_info (request_line (method request) (path request)
                                (status_code response) duration) ;;;
         ret response) w1
    end.

Definition health : M Json :=
  con <- connect ;;
  execute_select_1 con ;;;
  close con ;;;
  ret (JObj [("status", JStr "ok"); ("db", JStr "ok")]).

Definition list_tasks : M Json :=
  con <- connect ;;
  rs <- execute_select_all con ;;
  close con ;;;
  ret (JArr (map dict_of_row rs)).

Definition create_task (payload : TaskCreate) : M Json :=
  con <- connect ;;
  lastrowid <- execute_insert con (payload_title payload) ;;
  commit con ;;;
  row <- execute_select_by_id con lastrowid ;;
  close con ;;;
  dict row.

Definition mark_done (task_id : Z) : M Json :=
  con <- connect ;;
  n <- execute_update_done con task_id ;;
  commit con ;;;
  if decide (n = 0%nat)
  then close con ;;; raise (HTTPException 404 "Task not found")
  else
    row <- execute_select_by_id con task_id ;;
    close con ;;;
    dict row.

Definition metrics : M Response :=
  fun w => (w, Return (mkResponse 200 (Exposition (registry w)))).

(** ** FastAPI and Starlette *)

(** How the framework calls an endpoint follows from its signature. *)
Inductive Endpoint :=
| NoArguments (f : M Json)
| BodyModel (f : TaskCreate -> M Json)
| IntPathParam (name : string) (f : Z -> M Json)
| RawResponse (f : M Response)
| Builtin (name : string).

Record Route := mkRoute {
  route_path : string;
  methods : list string;
  route_status : Z;
  endpoint : Endpoint
}.

(** An application object. *)
Record FastAPI := mkFastAPI {
  app_title : string;
  routes : list Route;
  user_middleware : list (Request -> (Request -> M Response) -> M Response);
  on_startup : list (M unit);
  tracing : option (string * string)   (* service name and exporter endpoint *)
}.

(** [FastAPI(title=...)]: no user routes, only the documentation pages. *)
Definition new_FastAPI (ttl : option string) : FastAPI :=
  mkFastAPI (default "FastAPI"%string ttl)
            [mkRoute "/openapi.json" ["GET"; "HEAD"]%string 200 (Builtin "openapi");
             mkRoute "/docs" ["GET"; "HEAD"]%string 200 (Builtin "swagger_ui_html");
             mkRoute "/docs/oauth2-redirect" ["GET"; "HEAD"]%string 200
                     (Builtin "swagger_ui_redirect");
             mkRoute "/redoc" ["GET"; "HEAD"]%string 200 (Builtin "redoc_html")]
            [] [] None.

Definition add_api_route (r : Route) (a : FastAPI) : FastAPI :=
  mkFastAPI (app_title a) (routes a ++ [r]) (user_middleware a) (on_startup a) (tracing a).

(** [@app.get(path)], [@app.post(path, status_code=...)], [@app.patch(path)] *)
Definition get (pth : string) (e : Endpoint) : FastAPI -> FastAPI :=
  add_api_route (mkRoute pth ["GET"%string] 200 e).
Definition post (pth : string) (status : Z) (e : Endpoint) : FastAPI -> FastAPI :=
  add_api_route (mkRoute pth ["POST"%string] status e).
Definition patch (pth : string) (e : Endpoint) : FastAPI -> FastAPI :=
  add_api_route (mkRoute pth ["PATCH"%string] 200 e).

(** [@app.middleware("http")]: the newest middleware is the outermost. *)
Definition middleware_http (f : Request -> (Request -> M Response) -> M Response)
  (a : FastAPI) : FastAPI :=
  mkFastAPI (app_title a) (routes a) (f :: user_middleware a) (on_startup a) (tracing a).

(** [@app.on_event("startup")] *)
Definition on_event_startup (f : M unit) (a : FastAPI) : FastAPI :=
  mkFastAPI (app_title a) (routes a) (user_middleware a) (on_startup a ++ [f]) (tracing a).

(** *** Paths *)

(** [s.split("/")] *)
Fixpoint split_slash (s : string) : list string :=
  match s with
  | EmptyString => [EmptyString]
  | String c s' =>
      if Ascii.eqb c "/"
      then EmptyString :: split_slash s'
      else match split_slash s' with
           | x :: xs => String c x :: xs
           | [] => [String c EmptyString]
           end
  end.

(** The name in a segment [{name}] of a route path. *)
Fixpoint before_closing_brace (s : string) : option string :=
  match s with
  | EmptyString => None
  | String c EmptyString => if Ascii.eqb c "}" then Some EmptyString else None
  | String c s' => option_map (String c) (before_closing_brace s')
  end.

Definition param_name (segment : string) : option string :=
  match segment with
  | String c s' => if Ascii.eqb c "{" then before_closing_brace s' else None
  | EmptyString => None
  end.

(** A parameter takes one non-empty segment; any other segment of the
    route path stands for itself. *)
Fixpoint match_segments (template actual : list string)
  : option (list (string * string)) :=
  match template, actual with
  | [], [] => Some []
  | t :: ts, a :: acts =>
      match param_name t with
      | Some name =>
          if String.eqb a EmptyString then None
          else option_map (cons (name, a)) (match_segments ts acts)
      | None =>
          if String.eqb t a then match_segments ts acts else None
      end
  | _, _ => None
  end.

Definition match_path (template actual : string) : option (list (string * string)) :=
  match_segments (split_slash template) (split_slash actual).

Inductive Match :=
| NONE
| PARTIAL
| FULL (path_params : list (string * string)).

Definition matches (r : Route) (request : Request) : Match :=
  match match_path (route_path r) (path request) with
  | None => NONE
  | Some ps =>
      if existsb (String.eqb (method request)) (methods r) then FULL ps else PARTIAL
  end.

(** *** Validation *)

(** A path parameter declared [int]: a decimal numeral, with an optional
    minus sign.  (The framework reads a few more spellings as integers: a
    leading plus sign, underscores between digits, white space around the
    numeral, a fraction of zeros; here they are refused like any other
    text.) *)
Definition parse_int (s : string) : option Z :=
  option_map Z.of_int (NilZero.int_of_string s).

Fixpoint lookup_param (name : string) (ps : list (string * string)) : option string :=
  match ps with
  | [] => None
  | (k, v) :: ps' => if String.eqb k name then Some v else lookup_param name ps'
  end.

(** [len(s)] for a string: the number of its characters.  In UTF-8 every
    character is one leading byte followed by continuation bytes, those of
    the form [10xxxxxx]; the characters are counted by their leading
    bytes. *)
Definition continuation_byte (c : ascii) : bool :=
  let n := nat_of_ascii c in ((128 <=? n) && (n <? 192))%nat.

Fixpoint len (s : string) : nat :=
  match s with
  | EmptyString => 0%nat
  | String c s' => if continuation_byte c then len s' else S (len s')
  end.

(** [title: str = Field(min_length=1, max_length=200)]: the member must be
    there, it must be a JSON string (no other value is converted to one),
    and the bounds are on its number of characters. *)
Definition validate_TaskCreate (ttl : option Json) : M TaskCreate :=
  match ttl with
  | None => raise (RequestValidationError ["Field required"%string])
  | Some (JStr s) =>
      if (len s <? 1)%nat
      then raise (RequestValidationError ["String should have at least 1 character"%string])
      else if (200 <? len s)%nat
      then raise (RequestValidationError ["String should have at most 200 characters"%string])
      else ret (mkTaskCreate s)
  | Some _ => raise (RequestValidationError ["Input should be a valid string"%string])
  end.

Definition json_response (status : Z) (c : M Json) : M Response :=
  j <- c ;; ret (mkResponse status (JSON j)).

(** Calling the endpoint of a matched route. *)
Definition run_endpoint (r : Route) (path_params : list (string * string))
  (request : Request) : M Response :=
  match endpoint r with
  | NoArguments f => json_response (route_status r) f
  | BodyModel f =>
      payload <- validate_TaskCreate (body_title request) ;;
      json_response (route_status r) (f payload)
  | IntPathParam name f =>
      match lookup_param name path_params with
      | Some v =>
          match parse_int v with
          | Some n => json_response (route_status r) (f n)
          | None =>
              raise (RequestValidationError
                       ["Input should be a valid integer"%string])
          end
      | None => raise (RequestValidationError ["Field required"%string])
      end
  | RawResponse f => f
  | Builtin name => ret (mkResponse (route_status r) (Page name))
  end.

(** *** Routing *)

Fixpoint ends_with_slash (s : string) : bool :=
  match s with
  | EmptyString => false
  | String c EmptyString => Ascii.eqb c "/"
  | String _ s' => ends_with_slash s'
  end.

(** [s.rstrip("/")] *)
Fixpoint rstrip_slash (s : string) : string :=
  match s with
  | EmptyString => EmptyString
  | String c s' =>
      match rstrip_slash s' with
      | EmptyString => if Ascii.eqb c "/" then EmptyString else String c EmptyString
      | rest => String c rest
      end
  end.

Definition toggle_slash (s : string) : string :=
  if ends_with_slash s then rstrip_slash s else s +:+ "/".

(** The router: the first full match is served; failing that, a route
    that matched the path alone answers 405; failing that, a route that
    matches the path with its trailing slash toggled makes a redirect;
    otherwise 404. *)
Fixpoint route_request (rs : list Route) (partial : bool) (all : list Route)
  (request : Request) : M Response :=
  match rs with
  | r :: rs' =>
      match matches r request with
      | FULL ps => run_endpoint r ps request
      | PARTIAL => route_request rs' true all request
      | NONE => route_request rs' partial all request
      end
  | [] =>
      if partial then raise (HTTPException 405 "Method Not Allowed")
      else if negb (String.eqb (path request) "/")
              && existsb (fun r => match match_path (route_path r)
                                                     (toggle_slash (path request)) with
                                    | Some _ => true
                                    | None => false
                                    end)
                         all
      then ret (mkResponse 307 (Redirect (toggle_slash (path request))))
      else raise (HTTPException 404 "Not Found")
  end.

Definition router (a : FastAPI) (request : Request) : M Response :=
  route_request (routes a) false (routes a) request.

(** The innermost middleware turns [HTTPException] and validation errors
    into responses; any other exception passes through it.  Of each
    validation error the detail shows the message here; the framework adds
    its type, its location and the input. *)
Definition exception_middleware (inner : Request -> M Response) (request : Request)
  : M Response :=
  fun w =>
    match inner request w with
    | (w', Raise (HTTPException status detail)) =>
        (w', Return (mkResponse status (JSON (JObj [("detail"%string, JStr detail)]))))
    | (w', Raise (RequestValidationError errors)) =>
        (w', Return (mkResponse 422
                       (JSON (JObj [("detail"%string, JArr (map JStr errors))]))))
    | r => r
    end.

(** The outermost middleware answers 500 for what escaped. *)
Definition server_error_middleware (inner : Request -> M Response) (request : Request)
  : World -> World * Response :=
  fun w =>
    match inner request w with
    | (w', Return response) => (w', response)
    | (w', Raise _) => (w', mkResponse 500 (PlainText "Internal Server Error"))
    end.

(** The stack between those two: the user middleware, outermost first. *)
Definition call_next_of (a : FastAPI) : Request -> M Response :=
  foldr (fun mw next request => mw request next)
        (exception_middleware (router a))
        (user_middleware a).

(** Serving one request. *)
Definition serve (a : FastAPI) (request : Request) : World -> World * Response :=
  server_error_middleware (call_next_of a) request.

(** The startup event of an application. *)
Fixpoint run_all (hooks : list (M unit)) : M unit :=
  match hooks with
  | [] => ret tt
  | h :: hs => h ;;; run_all hs
  end.

Definition lifespan_startup (a : FastAPI) : M unit := run_all (on_startup a).

(** ** The script *)

(** [s.lower()] *)
Definition lower_ascii (c : ascii) : ascii :=
  let n := nat_of_ascii c in
  if ((65 <=? n) && (n <=? 90))%nat then ascii_of_nat (n + 32) else c.

Fixpoint lower (s : string) : string :=
  match s with
  | EmptyString => EmptyString
  | String c s' => String (lower_ascii c) (lower s')
  end.

Definition setup_tracing (getenv : string -> option string) (a : FastAPI) : FastAPI :=
  if negb (String.eqb (lower (default "true"%string (getenv "OTEL_TRACING_ENABLED"%string)))
                      "true")
  then a
  else
    let service_name :=
      default "devops-fastapi-project"%string (getenv "OTEL_SERVICE_NAME"%string) in
    let endpoint :=
      default "http://localhost:4318/v1/traces"%string
              (getenv "OTEL_EXPORTER_OTLP_ENDPOINT"%string) in
    mkFastAPI (app_title a) (routes a) (user_middleware a) (on_startup a)
              (Some (service_name, endpoint)).

(** The module namespace while the script runs: the application objects
    created so far, and the one the global name [app] is bound to.  A
    decorator [@app.f(...)] acts on the object [app] names at that line. *)
Record Namespace := mkNamespace {
  objects : list FastAPI;
  app : nat
}.

Definition assign_app (a : FastAPI) (m : Namespace) : Namespace :=
  mkNamespace (objects m ++ [a]) (length (objects m)).

Definition on_app (f : FastAPI -> FastAPI) (m : Namespace) : Namespace :=
  mkNamespace (alter f (app m) (objects m)) (app m).

Definition main_py (getenv : string -> option string) : Namespace :=
  let m := mkNamespace [] 0 in
  let m := assign_app (new_FastAPI (Some APP_NAME)) m in                       (* line 38 *)
  let m := on_app (on_event_startup startup) m in                              (* line 62 *)
  let m := on_app (middleware_http observability_mw) m in                      (* line 66 *)
  let m := on_app (get "/health" (NoArguments health)) m in                    (* line 83 *)
  let m := on_app (get "/tasks" (NoArguments list_tasks)) m in                 (* line 90 *)
  let m := on_app (post "/tasks" 201 (BodyModel create_task)) m in             (* line 97 *)
  let m := on_app (patch "/tasks/{task_id}/done"
                         (IntPathParam "task_id" mark_done)) m in              (* line 109 *)
  let m := on_app (get "/metrics" (RawResponse metrics)) m in                  (* line 121 *)
  let m := assign_app (new_FastAPI None) m in                                  (* line 124 *)
  on_app (setup_tracing getenv) m.                                             (* line 125 *)

Definition object_at (m : Namespace) (i : nat) : FastAPI :=
  default (new_FastAPI None) (objects m !! i).

(** What [from app.main import app] gives. *)
Definition exported_app (getenv : string -> option string) : FastAPI :=
  object_at (main_py getenv) (app (main_py getenv)).

(** The object the decorators of lines 62 to 121 acted on. *)
Definition decorated_app (getenv : string -> option string) : FastAPI :=
  object_at (main_py getenv) 0.

(** ** Vocabulary of the statements *)

(** The requests of the documented HTTP surface. *)
Definition GET_health : Request := mkRequest "GET" "/health" None.
Definition GET_tasks : Request := mkRequest "GET" "/tasks" None.
Definition POST_body (v : option Json) : Request := mkRequest "POST" "/tasks" v.
Definition POST_tasks (ttl : option string) : Request := POST_body (option_map JStr ttl).
Definition PATCH_done (task_id : Z) : Request :=
  mkRequest "PATCH" ("/tasks/" +:+ str task_id +:+ "/done") None.
Definition GET_metrics : Request := mkRequest "GET" "/metrics" None.

Fixpoint no_slash (s : string) : bool :=
  match s with
  | EmptyString => true
  | String c s' => negb (Ascii.eqb c "/") && no_slash s'
  end.

(** The four operations on tasks, and the request each one is. *)
Inductive Operation :=
| Health
| ListTasks
| CreateTask (ttl : option string)
| MarkDone (task_id : Z).

Definition request_of (op : Operation) : Request :=
  match op with
  | Health => GET_health
  | ListTasks => GET_tasks
  | CreateTask ttl => POST_tasks ttl
  | MarkDone task_id => PATCH_done task_id
  end.

(** The handlers, as the router calls them once their arguments are
    validated. *)
Inductive Handler :=
| health_handler
| list_tasks_handler
| create_task_handler (payload : TaskCreate)
| mark_done_handler (task_id : Z).

Definition run_handler (h : Handler) : M Json :=
  match h with
  | health_handler => health
  | list_tasks_handler => list_tasks
  | create_task_handler payload => create_task payload
  | mark_done_handler task_id => mark_done task_id
  end.

(** The state after a sequence of operations served one after the other. *)
Definition run_ops (a : FastAPI) (ops : list Operation) (w : World) : World :=
  foldl (fun w op => fst (serve a (request_of op) w)) w ops.

(** Creating one task per title; the responses come back in order. *)
Fixpoint create_all (a : FastAPI) (ttls : list string) (w : World)
  : World * list Response :=
  match ttls with
  | [] => (w, [])
  | ttl :: ttls' =>
      let (w1, r) := serve a (POST_tasks (Some ttl)) w in
      let (w2, rs) := create_all a ttls' w1 in
      (w2, r :: rs)
  end.

(** The response the middleware stack makes of what the router did. *)
Definition response_of (o : Outcome Response) : Response :=
  match o with
  | Return r => r
  | Raise (HTTPException status detail) =>
      mkResponse status (JSON (JObj [("detail"%string, JStr detail)]))
  | Raise (RequestValidationError errors) =>
      mkResponse 422 (JSON (JObj [("detail"%string, JArr (map JStr errors))]))
  | Raise _ => mkResponse 500 (PlainText "Internal Server Error")
  end.

(** Rowids are 64-bit and, the column being the primary key, distinct. *)
Definition in_range (n : Z) : Prop := min_rowid <= n <= max_rowid.

Definition wf_table (t : Table) : Prop :=
  NoDup (map id (rows t)) /\ Forall (fun r => in_range (id r)) (rows t).

(** The store works: the table exists and no failure is coming. *)
Definition operational (w : World) (t : Table) : Prop :=
  disk (store w) = Some t /\ faults (store w) = [] /\ wf_table t.

(** AUTOINCREMENT can still hand out [n] rowids. *)
Definition has_room (t : Table) (n : Z) : Prop :=
  Z.max (seq t) (max_id (rows t)) + n <= max_rowid.

(** The row INSERT adds to table [t], and the table with it. *)
Definition new_row (t : Table) (ttl stamp : string) : Row :=
  mkRow (Z.max (seq t) (max_id (rows t)) + 1) ttl 0 stamp.

Definition with_row (t : Table) (r : Row) : Table :=
  mkTable (rows t ++ [r]) (id r).

(** The table after UPDATE has set [done] on the rows with id [n], and
    the row SELECT then fetches. *)
Definition with_done (t : Table) (n : Z) : Table :=
  mkTable (map (set_done n) (rows t)) (seq t).

Definition fetch (t : Table) (n : Z) : option Row :=
  head (filter (fun r => id r = n) (rows t)).

(** A title that [TaskCreate] accepts: from 1 to 200 characters. *)
Definition valid_title (s : string) : Prop :=
  (1 <= len s <= 200)%nat.

(** A request title that is absent, empty, or longer than 200 characters. *)
Definition invalid_title (ttl : option string) : Prop :=
  match ttl with
  | None => True
  | Some s => len s = 0%nat \/ (200 < len s)%nat
  end.

(** The same of the [title] member of a body, which can be any JSON value:
    absent, or a string that is empty or longer than 200 characters. *)
Definition absent_empty_or_long (v : option Json) : Prop :=
  match v with
  | None => True
  | Some (JStr s) => len s = 0%nat \/ (200 < len s)%nat
  | Some _ => False
  end.

(** A [title] member that is there but is not a string. *)
Definition not_a_string (v : option Json) : Prop :=
  match v with
  | None | Some (JStr _) => False
  | Some _ => True
  end.

(** A title of 101 characters and 202 bytes. *)
Definition accented_title : string :=
  String.concat EmptyString (replicate 101 "é"%string).

(** Task [i] is stored and marked done. *)
Definition task_done (d : Database) (i : Z) : Prop :=
  exists t r, d = Some t /\ r ∈ rows t /\ id r = i /\ done r = 1.

(** An exception that a store call raised (as opposed to one the handler
    raises itself or the framework raises for it). *)
Definition store_error (e : Exn) : bool :=
  match e with
  | OperationalError _ | ProgrammingError _ | OverflowError _ => true
  | _ => false
  end.

Definition raised_by_store {A} (o : Outcome A) : bool :=
  match o with
  | Return _ => false
  | Raise e => store_error e
  end.

(** The status the middleware files a request under. *)
Definition status_label (o : Outcome Response) : string :=
  match o with
  | Return response => str (status_code response)
  | Raise _ => "500"%string
  end.

Definition status_logged (o : Outcome Response) : Z :=
  match o with
  | Return response => status_code response
  | Raise _ => 500
  end.

(** The next reading of the clock. *)
Definition next_reading (w : World) : Q := default 0%Q (head (perf_counter w)).

(** Descending order on rowids, strict. *)
Definition id_desc (a b : Row) : Prop := id b < id a.

(** A store to try things on: no connection open, the clock stopped. *)
Definition no_env : string -> option string := fun _ => None.

Definition world_with (d : Database) (f : list bool) : World :=
  mkWorld (mkStore d ∅ 0 f) (mkRegistry ∅ ∅) [] [] "2024-01-01 00:00:00".

Definition two_tasks : Table :=
  mkTable [mkRow 1 "write report" 0 "2024-01-01 00:00:00";
           mkRow 2 "review" 1 "2024-01-01 00:00:00"] 2.

(** Serving any requests, one after the other. *)
Definition run_requests (a : FastAPI) (reqs : list Request) (w : World) : World :=
  foldl (fun w r => fst (serve a r w)) w reqs.

(** A task with this id, title and creation time is stored. *)
Definition stored (d : Database) (i : Z) (ttl stamp : string) : Prop :=
  exists t r, d = Some t /\ r ∈ rows t /\ id r = i /\ title r = ttl /\ created_at r = stamp.

(** Every stored title is one that [TaskCreate] accepts. *)
Definition titles_valid (d : Database) : Prop :=
  forall t, d = Some t -> Forall (fun r => valid_title (title r)) (rows t).

(** The metrics and the log are as they were. *)
Definition same_observations (w w' : World) : Prop :=
  registry w' = registry w /\ log w' = log w /\ perf_counter w' = perf_counter w.

(** The world after a handler has met a missing table: its connection is
    still open. *)
Definition left_open (w : World) : World :=
  set_store (mkStore (disk (store w)) (<[opened (store w) := None]> (conns (store w)))
                     (S (opened (store w))) (faults (store w))) w.

(** What serving a request can have done to the database [d], the clock
    showing [stamp]: nothing, one INSERT, or one UPDATE. *)
Inductive Change (stamp : string) (d : Database) : Database -> Prop :=
| Unchanged : Change stamp d d
| Inserted t s :
    d = Some t -> valid_title s -> has_room t 1 ->
    Change stamp d (Some (with_row t (new_row t s stamp)))
| Updated t n :
    d = Some t -> in_range n -> Change stamp d (Some (with_done t n)).

(** One of the next [n] store calls is going to raise. *)
Definition store_fails_within (n : nat) (w : World) : bool :=
  existsb (fun b => b) (take n (faults (store w))).

(** Two tests of [tests/test_api.py], run against an application; the
    client is made without entering its context, so no startup event is
    sent. [true] when every assertion holds. (The client would follow a
    redirect; none arises for these two paths on the applications of the
    script.) *)
Fixpoint json_member (key : string) (members : list (string * Json)) : option Json :=
  match members with
  | [] => None
  | (k, v) :: members' =>
      match json_member key members' with
      | Some v' => Some v'       (* of two members with one key, the later stays *)
      | None => if String.eqb k key then Some v else None
      end
  end.

Definition test_health (a : FastAPI) (w : World) : bool :=
  let r := snd (serve a GET_health w) in
  (status_code r =? 200)
  && match content r with
     | JSON (JObj members) =>
         match json_member "status" members with
         | Some (JStr s) => String.eqb s "ok"
         | _ => false
         end
     | _ => false
     end.

Definition test_mark_done_404 (a : FastAPI) (w : World) : bool :=
  let r := snd (serve a (mkRequest "PATCH" "/tasks/999999/done" None) w) in
  status_code r =? 404.

(** Weakest preconditions: [wp c Q w] when running [c] from [w] ends in
    an outcome and a world that [Q] accepts. *)
Definition wp {A} (c : M A) (Q : Outcome A -> World -> Prop) (w : World) : Prop :=
  let (w', o) := c w in Q o w'.

Definition with_faults (f : list bool) (w : World) : World :=
  set_store (set_faults f (store w)) w.

(** The world once a handler that ran without failure has closed its
    connection, the database being [d] by then. *)
Definition closed_with (d : Database) (w : World) : World :=
  set_store (mkStore d (delete (opened (store w)) (conns (store w)))
                     (S (opened (store w))) []) w.

(** * Paths and numerals *)

Lemma split_slash_prefix (s t : string) :
  no_slash s = true -> split_slash (s +:+ String "/" t) = s :: split_slash t.
Proof.
  induction s as [|c s IH]; simpl; intros H.
  - reflexivity.
  - apply andb_prop in H as [Hc Hs].
    destruct (Ascii.eqb c "/"); [discriminate|].
    now rewrite IH.
Qed.

Lemma string_of_uint_no_slash (d : Decimal.uint) :
  no_slash (NilEmpty.string_of_uint d) = true.
Proof. induction d; simpl; auto. Qed.

Lemma str_no_slash (n : Z) : no_slash (str n) = true.
Proof.
  unfold str, NilZero.string_of_int, NilZero.string_of_uint.
  destruct (Z.to_int n) as [d|d]; destruct d; simpl;
    auto using string_of_uint_no_slash.
Qed.

Lemma str_not_empty (n : Z) : String.eqb (str n) EmptyString = false.
Proof.
  unfold str, NilZero.string_of_int, NilZero.string_of_uint.
  destruct (Z.to_int n) as [d|d]; destruct d; reflexivity.
Qed.

Lemma parse_int_str (n : Z) : parse_int (str n) = Some n.
Proof.
  unfold parse_int, str.
  rewrite NilZero.isi.
  - simpl. now rewrite DecimalZ.of_to.
  - destruct n; simpl; try discriminate.
    intros [= H]. now apply DecimalPos.Unsigned.to_uint_nonnil in H.
  - destruct n; simpl; try discriminate.
    intros [= H]. now apply DecimalPos.Unsigned.to_uint_nonnil in H.
Qed.

Lemma split_slash_PATCH_done (s : string) :
  no_slash s = true ->
  split_slash ("/tasks/" +:+ s +:+ "/done")
  = [EmptyString; "tasks"%string; s; "done"%string].
Proof.
  intros H.
  change ("/tasks/" +:+ s +:+ "/done")
    with (EmptyString +:+ String "/" ("tasks" +:+ String "/" (s +:+ String "/" "done"))).
  now rewrite !split_slash_prefix.
Qed.

(** * The two application objects *)

(** The decorated object does not depend on the environment. *)
Lemma decorated_app_eq (getenv : string -> option string) :
  decorated_app getenv
  = get "/metrics" (RawResponse metrics)
      (patch "/tasks/{task_id}/done" (IntPathParam "task_id" mark_done)
         (post "/tasks" 201 (BodyModel create_task)
            (get "/tasks" (NoArguments list_tasks)
               (get "/health" (NoArguments health)
                  (middleware_http observability_mw
                     (on_event_startup startup (new_FastAPI (Some APP_NAME)))))))).
Proof. reflexivity. Qed.

(** The exported object has the routes and middleware of a new one. *)
Lemma exported_app_routes (getenv : string -> option string) :
  routes (exported_app getenv) = routes (new_FastAPI None)
  /\ user_middleware (exported_app getenv) = []
  /\ on_startup (exported_app getenv) = [].
Proof.
  unfold exported_app, main_py, object_at, on_app, assign_app. cbn.
  unfold setup_tracing.
  destruct (negb _); repeat split.
Qed.

Lemma call_next_decorated (getenv : string -> option string) (request : Request) :
  call_next_of (decorated_app getenv) request
  = observability_mw request (exception_middleware (router (decorated_app getenv))).
Proof. reflexivity. Qed.

Lemma router_GET_health (getenv : string -> option string) :
  router (decorated_app getenv) GET_health = json_response 200 health.
Proof. reflexivity. Qed.

Lemma router_GET_tasks (getenv : string -> option string) :
  router (decorated_app getenv) GET_tasks = json_response 200 list_tasks.
Proof. reflexivity. Qed.

Lemma router_POST_body (getenv : string -> option string) (v : option Json) :
  router (decorated_app getenv) (POST_body v)
  = (payload <- validate_TaskCreate v ;; json_response 201 (create_task payload)).
Proof. reflexivity. Qed.

Lemma router_POST_tasks (getenv : string -> option string) (ttl : option string) :
  router (decorated_app getenv) (POST_tasks ttl)
  = (payload <- validate_TaskCreate (option_map JStr ttl) ;;
     json_response 201 (create_task payload)).
Proof. reflexivity. Qed.

Lemma router_GET_metrics (getenv : string -> option string) :
  router (decorated_app getenv) GET_metrics = metrics.
Proof. reflexivity. Qed.

Lemma router_PATCH_done (getenv : string -> option string) (task_id : Z) :
  router (decorated_app getenv) (PATCH_done task_id)
  = json_response 200 (mark_done task_id).
Proof.
  rewrite decorated_app_eq.
  assert (Hs := split_slash_PATCH_done (str task_id) (str_no_slash task_id)).
  unfold router, PATCH_done.
  cbn [get patch post add_api_route middleware_http on_event_startup new_FastAPI
       routes List.app route_request].
  unfold matches, match_path. cbn [route_path path method methods].
  rewrite Hs.
  cbn -[str mark_done].
  rewrite str_not_empty.
  cbn -[str mark_done parse_int].
  rewrite parse_int_str. reflexivity.
Qed.

(** * Rows *)

Section Rows.
Implicit Types (l : list Row) (r : Row) (n : Z).

Lemma max_id_nonneg l : 0 <= max_id l.
Proof. induction l; simpl; lia. Qed.

Lemma max_id_bound l r : r ∈ l -> id r <= max_id l.
Proof.
  induction l as [|x l IH]; intros H.
  - inversion H.
  - apply elem_of_cons in H as [->|H]; simpl; [lia|].
    specialize (IH H). lia.
Qed.

Lemma set_done_id n r : id (set_done n r) = id r.
Proof. unfold set_done. now destruct (id r =? n). Qed.

Lemma set_done_hit n r :
  id r = n -> set_done n r = mkRow (id r) (title r) 1 (created_at r).
Proof. intros H. unfold set_done. now rewrite (proj2 (Z.eqb_eq _ _) H). Qed.

Lemma set_done_miss n r : id r <> n -> set_done n r = r.
Proof. intros H. unfold set_done. now rewrite (proj2 (Z.eqb_neq _ _) H). Qed.

Lemma set_done_idem n r : set_done n (set_done n r) = set_done n r.
Proof.
  destruct (decide (id r = n)) as [H|H].
  - rewrite (set_done_hit n r H). now rewrite set_done_hit.
  - now rewrite !(set_done_miss n r H).
Qed.

Lemma map_set_done_idem n l :
  map (set_done n) (map (set_done n) l) = map (set_done n) l.
Proof. induction l; simpl; [|rewrite set_done_idem]; congruence. Qed.

Lemma map_set_done_ids n l : map id (map (set_done n) l) = map id l.
Proof. induction l; simpl; [|rewrite set_done_id]; congruence. Qed.

Lemma rowcount_zero n l : rowcount n l = 0%nat <-> forall r, r ∈ l -> id r <> n.
Proof.
  unfold rowcount. induction l as [|x l IH].
  - split; [intros _ r H; inversion H | reflexivity].
  - rewrite filter_cons. destruct (decide (id x = n)) as [Hx|Hx]; simpl.
    + split; [discriminate|]. intros H. destruct (H x); [left|done].
    + rewrite IH. split.
      * intros H r Hr. apply elem_of_cons in Hr as [->|Hr]; auto.
      * intros H r Hr. apply H. now right.
Qed.

Lemma map_set_done_none n l : rowcount n l = 0%nat -> map (set_done n) l = l.
Proof.
  rewrite rowcount_zero. induction l as [|x l IH]; intros H; simpl; [done|].
  rewrite set_done_miss, IH; [done| |].
  - intros r Hr. apply H. now right.
  - apply H. left.
Qed.

Lemma filter_map_set_done n l :
  filter (fun r => id r = n) (map (set_done n) l)
  = map (set_done n) (filter (fun r => id r = n) l).
Proof.
  induction l as [|x l IH]; simpl; [done|].
  rewrite !filter_cons, set_done_id.
  destruct (decide (id x = n)); simpl; congruence.
Qed.

(** What [fetchone] finds after the update, when a row matched. *)
Lemma updated_row n l :
  rowcount n l <> 0%nat ->
  exists r0, r0 ∈ l /\ id r0 = n
    /\ head (filter (fun r => id r = n) (map (set_done n) l))
       = Some (mkRow n (title r0) 1 (created_at r0)).
Proof.
  unfold rowcount. rewrite filter_map_set_done.
  destruct (filter (fun r => id r = n) l) as [|r0 k] eqn:E; [done|]. intros _.
  assert (Hr0 : r0 ∈ filter (fun r => id r = n) l) by (rewrite E; left).
  apply list_elem_of_filter in Hr0 as [Hid Hin].
  exists r0. repeat split; [done..|].
  simpl. rewrite set_done_hit by done. now rewrite Hid.
Qed.

(** What [fetchone] finds after the insert: the new row. *)
Lemma inserted_row l n ttl dn stamp :
  max_id l < n ->
  head (filter (fun x => id x = n) (l ++ [mkRow n ttl dn stamp]))
  = Some (mkRow n ttl dn stamp).
Proof.
  intros H. rewrite filter_app.
  replace (filter (fun x => id x = n) l) with (@nil Row).
  - simpl. rewrite filter_cons. simpl. now destruct (decide (n = n)).
  - symmetry. induction l as [|x l IH]; [done|].
    simpl in H. rewrite filter_cons.
    destruct (decide (id x = n)); [lia|]. apply IH. lia.
Qed.

Lemma task_done_app t r i s :
  task_done (Some t) i -> task_done (Some (mkTable (rows t ++ [r]) s)) i.
Proof.
  intros (t' & x & [= <-] & Hx & Hid & Hd).
  exists (mkTable (rows t ++ [r]) s), x. repeat split; [|done..].
  simpl. apply elem_of_app. now left.
Qed.

Lemma task_done_set_done t n i :
  task_done (Some t) i ->
  task_done (Some (mkTable (map (set_done n) (rows t)) (seq t))) i.
Proof.
  intros (t' & x & [= <-] & Hx & Hid & Hd).
  exists (mkTable (map (set_done n) (rows t)) (seq t)), (set_done n x).
  repeat split.
  - simpl. apply list_elem_of_In, in_map, list_elem_of_In, Hx.
  - now rewrite set_done_id.
  - unfold set_done. now destruct (id x =? n).
Qed.

End Rows.

(** [ORDER BY id DESC] returns the rows of the table, in strictly
    descending order of their ids. *)
Section OrderBy.
Implicit Types (l : list Row) (r : Row).

Lemma insert_desc_perm r l : insert_desc r l ≡ₚ r :: l.
Proof.
  induction l as [|x l IH]; simpl; [done|].
  destruct (id x <=? id r); [done|].
  rewrite IH. apply Permutation_swap.
Qed.

Lemma order_by_id_desc_perm l : order_by_id_desc l ≡ₚ l.
Proof.
  induction l as [|x l IH]; simpl; [done|].
  now rewrite insert_desc_perm, IH.
Qed.

Lemma insert_desc_sorted r l :
  Forall (fun x => id x <> id r) l ->
  StronglySorted id_desc l -> StronglySorted id_desc (insert_desc r l).
Proof.
  induction l as [|x l IH]; intros Hne Hs; simpl.
  - repeat constructor.
  - apply Forall_cons in Hne as [Hx Hne].
    apply StronglySorted_inv in Hs as [Hs Hall].
    destruct (Z.leb_spec (id x) (id r)) as [Hle|Hgt].
    + constructor; [now constructor|].
      constructor; [unfold id_desc; lia|].
      eapply Forall_impl; [exact Hall|]. unfold id_desc. simpl. intros; lia.
    + constructor; [now apply IH|].
      rewrite insert_desc_perm. constructor; [exact Hgt|exact Hall].
Qed.

Lemma order_by_id_desc_sorted l :
  NoDup (map id l) -> StronglySorted id_desc (order_by_id_desc l).
Proof.
  induction l as [|x l IH]; simpl; intros Hnd.
  - constructor.
  - apply NoDup_cons in Hnd as [Hx Hnd].
    apply insert_desc_sorted; [|now apply IH].
    rewrite order_by_id_desc_perm.
    apply Forall_forall. intros y Hy Heq. apply Hx.
    rewrite <- Heq. apply list_elem_of_In, in_map, list_elem_of_In, Hy.
Qed.
End OrderBy.

(** * Running the handlers *)

Lemma wp_bind {A B} (c : M A) (k : A -> M B) Q w :
  wp c (fun o w' =>
          match o with
          | Return a => wp (k a) Q w'
          | Raise e => Q (Raise e) w'
          end) w ->
  wp (bind c k) Q w.
Proof. unfold wp, bind. destruct (c w) as [w' [a|e]]; auto. Qed.

Lemma wp_ret {A} (a : A) (Q : Outcome A -> World -> Prop) w :
  Q (Return a) w -> wp (ret a) Q w.
Proof. auto. Qed.

Lemma wp_raise {A} e (Q : Outcome A -> World -> Prop) w :
  Q (Raise e) w -> wp (raise e) Q w.
Proof. auto. Qed.

Lemma wp_elim {A} (c : M A) (Q : Outcome A -> World -> Prop) w :
  wp c Q w -> Q (snd (c w)) (fst (c w)).
Proof. unfold wp. now destruct (c w). Qed.

(** A store call either goes through or raises, and touches nothing but
    the failure schedule. *)
Lemma wp_store_call (Q : Outcome unit -> World -> Prop) w :
  (forall f, Q (Return tt) (with_faults f w)) ->
  (forall f, Q (Raise (OperationalError "database is locked")) (with_faults f w)) ->
  wp store_call Q w.
Proof.
  intros H1 H2. unfold wp, store_call.
  destruct w as [[d c o f] rg lg pc nw]; cbn.
  destruct f as [|[] f]; [apply (H1 []) | apply (H2 f) | apply (H1 f)].
Qed.

Lemma wp_store_call_nil (Q : Outcome unit -> World -> Prop) w :
  faults (store w) = [] -> Q (Return tt) w -> wp store_call Q w.
Proof. intros H HQ. unfold wp, store_call. now rewrite H. Qed.

Ltac wp_simpl :=
  unfold with_faults, set_store, set_faults, set_conns, set_disk;
  cbn -[wp bind store_call connect tasks_table commit close view write
        write_schema datetime_now execute_select_1 execute_create_table execute_select_all
        execute_insert execute_update_done execute_select_by_id bind_int dict
        Z.add Z.max Z.leb Z.eqb Z.ltb max_rowid min_rowid
        order_by_id_desc max_id rowcount set_done dict_of_row].

Ltac wp_prim :=
  unfold wp at 1; wp_simpl;
  rewrite ?lookup_insert_eq, ?lookup_delete_eq; wp_simpl.

(** One step of symbolic execution. *)
Ltac wp_step :=
  lazymatch goal with
  | |- wp (bind _ _) _ _ => apply wp_bind
  | |- wp (ret _) _ _ => apply wp_ret; wp_simpl
  | |- wp (raise _) _ _ => apply wp_raise; wp_simpl
  | |- wp store_call _ (mkWorld (mkStore _ _ _ []) _ _ _ _) =>
      apply wp_store_call_nil; [reflexivity|]; wp_simpl
  | |- wp store_call _ _ => apply wp_store_call; intros ?; wp_simpl
  | |- wp connect _ _ => unfold connect
  | |- wp (tasks_table _) _ _ => unfold tasks_table
  | |- wp (commit _) _ _ => unfold commit
  | |- wp (execute_select_1 _) _ _ => unfold execute_select_1
  | |- wp (execute_create_table _) _ _ => unfold execute_create_table
  | |- wp (execute_select_all _) _ _ => unfold execute_select_all
  | |- wp (execute_insert _ _) _ _ => unfold execute_insert
  | |- wp (execute_update_done _ _) _ _ => unfold execute_update_done
  | |- wp (execute_select_by_id _ _) _ _ => unfold execute_select_by_id
  | |- wp (bind_int _) _ _ => unfold bind_int
  | |- wp (dict _) _ _ => unfold dict
  | |- wp (view _) _ _ => unfold view; wp_prim
  | |- wp (write _ _) _ _ => unfold write; wp_prim
  | |- wp (write_schema _ _) _ _ => unfold write_schema; wp_prim
  | |- wp (close _) _ _ => unfold close; wp_prim
  | |- wp datetime_now _ _ => unfold datetime_now; wp_prim
  | |- wp (if ?b then _ else _) _ _ =>
      first [ match goal with H : b = _ |- _ => rewrite H end | destruct b eqn:? ]
  | |- wp (match ?d with _ => _ end) _ _ =>
      first [ match goal with H : d = _ |- _ => rewrite H end | destruct d eqn:? ]
  | |- wp (fun _ => _) _ _ => wp_prim
  end.

Lemma in_range_bind n : in_range n -> (min_rowid <=? n) && (n <=? max_rowid) = true.
Proof. unfold in_range. intros [H1 H2]. apply andb_true_intro. split; now apply Z.leb_le. Qed.

Lemma not_in_range_bind n :
  (min_rowid <=? n) && (n <=? max_rowid) = false -> ~ in_range n.
Proof.
  unfold in_range. intros H [H1 H2].
  apply Z.leb_le in H1, H2. rewrite H1, H2 in H. discriminate.
Qed.

(** ** With a store that works *)

Lemma run_eq {A} (c : M A) w r : wp c (fun o w' => (w', o) = r) w -> c w = r.
Proof. unfold wp. now destruct (c w). Qed.

Ltac explicit_world w :=
  destruct w as [[?d ?c ?o ?f] ?rg ?lg ?pc ?nw]; cbn in *; subst.

Ltac run_handler_tac :=
  apply run_eq; repeat wp_step;
  unfold closed_with; wp_simpl; rewrite ?delete_insert_eq; try reflexivity.

Lemma health_run w :
  faults (store w) = [] ->
  health w
  = (closed_with (disk (store w)) w,
     Return (JObj [("status"%string, JStr "ok"); ("db"%string, JStr "ok")])).
Proof. intros Hf. explicit_world w. unfold health. run_handler_tac. Qed.

Lemma list_tasks_run w t :
  disk (store w) = Some t -> faults (store w) = [] ->
  list_tasks w
  = (closed_with (Some t) w, Return (JArr (map dict_of_row (order_by_id_desc (rows t))))).
Proof. intros Hd Hf. explicit_world w. unfold list_tasks. run_handler_tac. Qed.

Lemma init_db_run w :
  faults (store w) = [] ->
  init_db w
  = (closed_with (Some (default (mkTable [] 0) (disk (store w)))) w, Return tt).
Proof.
  intros Hf. explicit_world w. unfold init_db.
  run_handler_tac.
Qed.

Ltac range_facts :=
  repeat match goal with
         | H : (_ <=? _) = true |- _ => apply Z.leb_le in H
         | H : (_ <=? _) = false |- _ => apply Z.leb_gt in H
         | H : (_ && _) = false |- _ => apply not_in_range_bind in H
         | H : (_ && _) = true |- _ => apply andb_prop in H as [? ?]
         end.

Lemma create_task_run w t payload :
  disk (store w) = Some t -> faults (store w) = [] -> has_room t 1 ->
  create_task payload w
  = (closed_with (Some (with_row t (new_row t (payload_title payload) (now w)))) w,
     Return (dict_of_row (new_row t (payload_title payload) (now w)))).
Proof.
  intros Hd Hf Hroom. unfold has_room in Hroom. unfold with_row, new_row.
  assert (Hmax := max_id_nonneg (rows t)).
  explicit_world w. unfold create_task.
  apply run_eq; repeat wp_step.
  all: try match goal with
      | H : head (filter _ (_ ++ [_])) = _ |- _ =>
          rewrite inserted_row in H by lia; inversion H; subst
      end.
  all: unfold closed_with; wp_simpl; rewrite ?delete_insert_eq; try reflexivity.
  all: range_facts; unfold in_range, min_rowid, max_rowid in *; lia.
Qed.

Lemma rowcount_pos n l : rowcount n l <> 0%nat <-> exists r, r ∈ l /\ id r = n.
Proof.
  unfold rowcount. split.
  - destruct (filter (fun r => id r = n) l) as [|r k] eqn:E; [done|]. intros _.
    assert (Hr : r ∈ filter (fun r => id r = n) l) by (rewrite E; left).
    apply list_elem_of_filter in Hr as [Hid Hin]. now exists r.
  - intros (r & Hin & Hid) H.
    destruct (filter (fun r => id r = n) l) eqn:E; [|done].
    exact (filter_nil_not_elem_of _ l r E Hid Hin).
Qed.

Lemma fetch_with_done_Some t n r :
  fetch (with_done t n) n = Some r -> rowcount n (rows t) <> 0%nat.
Proof.
  unfold fetch, with_done, rowcount. cbn. rewrite filter_map_set_done.
  now destruct (filter (fun r => id r = n) (rows t)).
Qed.

Lemma fetch_with_done t n :
  rowcount n (rows t) <> 0%nat ->
  exists r0, r0 ∈ rows t /\ id r0 = n
    /\ fetch (with_done t n) n = Some (mkRow n (title r0) 1 (created_at r0)).
Proof. apply updated_row. Qed.

Lemma mark_done_missing w t n :
  disk (store w) = Some t -> faults (store w) = [] -> in_range n ->
  rowcount n (rows t) = 0%nat ->
  mark_done n w = (closed_with (Some t) w, Raise (HTTPException 404 "Task not found")).
Proof.
  intros Hd Hf Hn Hc. apply in_range_bind in Hn.
  explicit_world w. unfold mark_done.
  apply run_eq. repeat wp_step; try congruence.
  unfold closed_with; wp_simpl; rewrite ?delete_insert_eq.
  rewrite map_set_done_none by done. now destruct t.
Qed.

Lemma mark_done_found w t n r :
  disk (store w) = Some t -> faults (store w) = [] -> in_range n ->
  fetch (with_done t n) n = Some r ->
  mark_done n w = (closed_with (Some (with_done t n)) w, Return (dict_of_row r)).
Proof.
  intros Hd Hf Hn Hr. apply in_range_bind in Hn.
  assert (Hc := fetch_with_done_Some t n r Hr).
  unfold fetch, with_done in *. cbn in Hr.
  explicit_world w. unfold mark_done.
  apply run_eq. repeat wp_step; try congruence.
  all: unfold closed_with; wp_simpl; rewrite ?delete_insert_eq.
  all: congruence.
Qed.

(** ** Through the middleware stack *)

(** The clock read at the start of a request leaves the rest alone. *)
Lemma time_perf_counter_frame w :
  store (fst (time_perf_counter w)) = store w
  /\ now (fst (time_perf_counter w)) = now w
  /\ registry (fst (time_perf_counter w)) = registry w
  /\ log (fst (time_perf_counter w)) = log w.
Proof. unfold time_perf_counter. now destruct (perf_counter w). Qed.

(** What [observability_mw] does to a request, whatever is downstream. *)
Lemma observability_mw_run request call_next w :
  let w0 := fst (time_perf_counter w) in
  let start := snd (time_perf_counter w) in
  let w1 := fst (call_next request w0) in
  let o := snd (call_next request w0) in
  let duration := (next_reading w1 - next_reading w)%Q in
  let count_labels := (method request, path request, status_label o) in
  let lat_labels := (method request, path request) in
  observability_mw request call_next w
  = (mkWorld
       (store w1)
       (mkRegistry
          (<[count_labels := N.succ (default 0%N (REQ_COUNT (registry w1) !! count_labels))]>
             (REQ_COUNT (registry w1)))
          (<[lat_labels := default [] (REQ_LAT (registry w1) !! lat_labels) ++ [duration]]>
             (REQ_LAT (registry w1))))
       (log w1 ++ [request_line (method request) (path request) (status_logged o) duration])
       (tail (perf_counter w1))
       (now w1),
     o).
Proof.
  unfold observability_mw, bind, next_reading.
  destruct w as [s rg lg pc nw]. unfold time_perf_counter at 1 2 3. cbn.
  destruct pc as [|start pc]; cbn;
    match goal with
    | |- context [call_next request ?W] => destruct (call_next request W) as [w1 [r|e]]
    end; cbn;
    destruct w1 as [s1 rg1 lg1 pc1 nw1]; unfold time_perf_counter; cbn;
    destruct pc1; reflexivity.
Qed.

(** For the store and for the response, serving a request on the
    decorated application comes down to what the router does. *)
Lemma serve_decorated getenv request w :
  let w0 := fst (time_perf_counter w) in
  let r := router (decorated_app getenv) request w0 in
  store (fst (serve (decorated_app getenv) request w)) = store (fst r)
  /\ snd (serve (decorated_app getenv) request w) = response_of (snd r).
Proof.
  cbn zeta. unfold serve, server_error_middleware.
  rewrite call_next_decorated, observability_mw_run.
  unfold exception_middleware.
  destruct (router (decorated_app getenv) request (fst (time_perf_counter w)))
    as [w1 [r|[]]]; split; reflexivity.
Qed.

(** ** Serving the four operations *)

Lemma closed_with_store d w w0 :
  store w0 = store w -> store (closed_with d w0) = store (closed_with d w).
Proof. intros H. unfold closed_with. cbn. now rewrite H. Qed.

(** A string has at most as many characters as bytes. *)
Lemma len_le_length s : (len s <= String.length s)%nat.
Proof.
  induction s as [|c s IH]; cbn [len String.length]; [lia|].
  destruct (continuation_byte c); lia.
Qed.

(** Text of 7-bit characters has one byte per character. *)
Lemma len_ascii s :
  Forall (fun c => (nat_of_ascii c < 128)%nat) (list_ascii_of_string s) ->
  len s = String.length s.
Proof.
  induction s as [|c s IH]; cbn [len String.length list_ascii_of_string];
    [done|].
  intros H. apply Forall_cons in H as [Hc Hs]. rewrite (IH Hs).
  unfold continuation_byte.
  destruct (Nat.leb_spec 128 (nat_of_ascii c)); [lia|reflexivity].
Qed.

Lemma len_accented_title :
  len accented_title = 101%nat /\ String.length accented_title = 202%nat.
Proof. split; vm_compute; reflexivity. Qed.

Lemma validate_valid s :
  valid_title s -> validate_TaskCreate (Some (JStr s)) = ret (mkTaskCreate s).
Proof.
  unfold valid_title, validate_TaskCreate. intros [H1 H2].
  destruct (Nat.ltb_spec (len s) 1); [lia|].
  destruct (Nat.ltb_spec 200 (len s)); [lia|]. reflexivity.
Qed.

Lemma validate_refused v :
  absent_empty_or_long v \/ not_a_string v ->
  exists errors, validate_TaskCreate v = raise (RequestValidationError errors).
Proof.
  unfold absent_empty_or_long, not_a_string, validate_TaskCreate.
  destruct v as [[| |s| |]|]; eauto.
  intros [H|[]].
  destruct (Nat.ltb_spec (len s) 1); [eauto|].
  destruct (Nat.ltb_spec 200 (len s)); [eauto|lia].
Qed.

Lemma invalid_title_body ttl :
  invalid_title ttl <-> absent_empty_or_long (option_map JStr ttl).
Proof. destruct ttl; reflexivity. Qed.

Lemma validate_invalid ttl :
  invalid_title ttl ->
  exists errors,
    validate_TaskCreate (option_map JStr ttl) = raise (RequestValidationError errors).
Proof.
  intros H. apply validate_refused. left. now apply invalid_title_body.
Qed.

Lemma body_cases v :
  (absent_empty_or_long v \/ not_a_string v)
  \/ exists s, v = Some (JStr s) /\ valid_title s.
Proof.
  unfold absent_empty_or_long, not_a_string, valid_title.
  destruct v as [[| |s| |]|]; auto.
  destruct (decide (len s = 0%nat)); [left; left; lia|].
  destruct (decide (200 < len s)%nat); [left; left; lia|].
  right. exists s. split; [done|lia].
Qed.

Lemma title_cases ttl :
  invalid_title ttl \/ exists s, ttl = Some s /\ valid_title s.
Proof.
  destruct ttl as [s|]; [|now left]. unfold invalid_title, valid_title.
  destruct (decide (len s = 0%nat)); [left; lia|].
  destruct (decide (200 < len s)%nat); [left; lia|].
  right. exists s. split; [done|lia].
Qed.

Lemma valid_not_refused s :
  valid_title s ->
  ~ (absent_empty_or_long (Some (JStr s)) \/ not_a_string (Some (JStr s))).
Proof. unfold valid_title, absent_empty_or_long, not_a_string. intros H [?|[]]. lia. Qed.

Section Serving.
Variable getenv : string -> option string.

Lemma serve_health w :
  faults (store w) = [] ->
  store (fst (serve (decorated_app getenv) GET_health w)) = store (closed_with (disk (store w)) w)
  /\ snd (serve (decorated_app getenv) GET_health w)
     = mkResponse 200 (JSON (JObj [("status"%string, JStr "ok"); ("db"%string, JStr "ok")])).
Proof.
  intros Hf.
  destruct (serve_decorated getenv GET_health w) as [-> ->].
  destruct (time_perf_counter_frame w) as (Hs & Hn & _).
  rewrite router_GET_health. unfold json_response, bind.
  rewrite health_run by congruence. cbn. rewrite Hs.
  split; [now apply closed_with_store|reflexivity].
Qed.

Lemma serve_list_tasks w t :
  disk (store w) = Some t -> faults (store w) = [] ->
  store (fst (serve (decorated_app getenv) GET_tasks w)) = store (closed_with (Some t) w)
  /\ snd (serve (decorated_app getenv) GET_tasks w)
     = mkResponse 200 (JSON (JArr (map dict_of_row (order_by_id_desc (rows t))))).
Proof.
  intros Hd Hf.
  destruct (serve_decorated getenv GET_tasks w) as [-> ->].
  destruct (time_perf_counter_frame w) as (Hs & Hn & _).
  rewrite router_GET_tasks. unfold json_response, bind.
  rewrite (list_tasks_run _ t) by congruence. cbn.
  split; [now apply closed_with_store|reflexivity].
Qed.

Lemma serve_create_task w t s :
  disk (store w) = Some t -> faults (store w) = [] -> has_room t 1 ->
  valid_title s ->
  store (fst (serve (decorated_app getenv) (POST_tasks (Some s)) w))
  = store (closed_with (Some (with_row t (new_row t s (now w)))) w)
  /\ snd (serve (decorated_app getenv) (POST_tasks (Some s)) w)
     = mkResponse 201 (JSON (dict_of_row (new_row t s (now w)))).
Proof.
  intros Hd Hf Hroom Hv.
  destruct (serve_decorated getenv (POST_tasks (Some s)) w) as [-> ->].
  destruct (time_perf_counter_frame w) as (Hs & Hn & _).
  rewrite router_POST_tasks. cbn [option_map]. rewrite validate_valid by done.
  unfold json_response, bind, ret.
  rewrite (create_task_run _ t) by congruence. cbn. rewrite Hn.
  split; [now apply closed_with_store|reflexivity].
Qed.

Lemma serve_refused_title w v :
  absent_empty_or_long v \/ not_a_string v ->
  store (fst (serve (decorated_app getenv) (POST_body v) w)) = store w
  /\ status_code (snd (serve (decorated_app getenv) (POST_body v) w)) = 422.
Proof.
  intros Hi.
  destruct (serve_decorated getenv (POST_body v) w) as [-> ->].
  destruct (time_perf_counter_frame w) as (Hs & Hn & _).
  rewrite router_POST_body.
  destruct (validate_refused v Hi) as [errors ->].
  unfold bind, raise. cbn. now split.
Qed.

Lemma serve_mark_done_missing w t n :
  disk (store w) = Some t -> faults (store w) = [] -> in_range n ->
  rowcount n (rows t) = 0%nat ->
  store (fst (serve (decorated_app getenv) (PATCH_done n) w)) = store (closed_with (Some t) w)
  /\ snd (serve (decorated_app getenv) (PATCH_done n) w)
     = mkResponse 404 (JSON (JObj [("detail"%string, JStr "Task not found")])).
Proof.
  intros Hd Hf Hn Hc.
  destruct (serve_decorated getenv (PATCH_done n) w) as [-> ->].
  destruct (time_perf_counter_frame w) as (Hs & _).
  rewrite router_PATCH_done. unfold json_response, bind.
  rewrite (mark_done_missing _ t) by congruence. cbn.
  split; [now apply closed_with_store|reflexivity].
Qed.

Lemma serve_mark_done_found w t n r :
  disk (store w) = Some t -> faults (store w) = [] -> in_range n ->
  fetch (with_done t n) n = Some r ->
  store (fst (serve (decorated_app getenv) (PATCH_done n) w))
  = store (closed_with (Some (with_done t n)) w)
  /\ snd (serve (decorated_app getenv) (PATCH_done n) w) = mkResponse 200 (JSON (dict_of_row r)).
Proof.
  intros Hd Hf Hn Hr.
  destruct (serve_decorated getenv (PATCH_done n) w) as [-> ->].
  destruct (time_perf_counter_frame w) as (Hs & _).
  rewrite router_PATCH_done. unfold json_response, bind.
  rewrite (mark_done_found _ t n r) by congruence. cbn.
  split; [now apply closed_with_store|reflexivity].
Qed.
End Serving.

(** ** The table stays well formed *)

Lemma max_id_app l r : max_id (l ++ [r]) = Z.max (max_id l) (id r).
Proof. induction l as [|x l IH]; simpl; [|rewrite IH]; lia. Qed.

Lemma wf_table_with_row t s stamp :
  wf_table t -> has_room t 1 -> wf_table (with_row t (new_row t s stamp)).
Proof.
  unfold wf_table, has_room, with_row, new_row. cbn. intros [Hnd Hr] Hroom.
  assert (Hmax := max_id_nonneg (rows t)). split.
  - rewrite map_app. apply NoDup_app. repeat split.
    + exact Hnd.
    + intros x Hx Hx'. apply list_elem_of_singleton in Hx'. subst x.
      apply list_elem_of_In, in_map_iff in Hx as (r0 & Hid & Hin).
      apply list_elem_of_In, max_id_bound in Hin. cbn in Hid. lia.
    + apply NoDup_singleton.
  - apply Forall_app. split; [exact Hr|].
    constructor; [|constructor].
    unfold in_range, min_rowid, max_rowid in *. cbn. lia.
Qed.

Lemma has_room_with_row t s stamp n :
  has_room t (1 + n) -> has_room (with_row t (new_row t s stamp)) n.
Proof.
  unfold has_room, with_row, new_row. cbn. rewrite max_id_app. cbn. lia.
Qed.

Lemma wf_table_with_done t n : wf_table t -> wf_table (with_done t n).
Proof.
  unfold wf_table, with_done. cbn. intros [Hnd Hr]. split.
  - now rewrite map_set_done_ids.
  - apply Forall_forall. intros x Hx.
    apply list_elem_of_In, in_map_iff in Hx as (r0 & <- & Hin).
    rewrite set_done_id.
    apply (proj1 (Forall_forall _ _) Hr). now apply list_elem_of_In.
Qed.

(** The startup event on a new database file leaves a store that works,
    with an empty table. *)
Lemma startup_operational getenv w :
  faults (store w) = [] -> disk (store w) = None ->
  operational (fst (lifespan_startup (decorated_app getenv) w)) (mkTable [] 0).
Proof.
  intros Hf Hd. rewrite decorated_app_eq.
  unfold lifespan_startup. cbn [on_startup get patch post add_api_route middleware_http
                                on_event_startup new_FastAPI List.app run_all].
  unfold startup, bind. rewrite init_db_run by done. rewrite Hd. cbn.
  repeat split; constructor.
Qed.

(** * Creating, listing, marking done *)

Lemma operational_two_tasks : operational (world_with (Some two_tasks) []) two_tasks.
Proof.
  repeat split.
  - cbn. apply NoDup_cons. split; [|apply NoDup_singleton].
    intros H. apply list_elem_of_singleton in H. discriminate.
  - repeat constructor; vm_compute; discriminate.
Defined.

(** C3: for every title of 1 to 200 characters, whatever the number of
    bytes they take, creating a task answers 201 with a task that has this
    title, is not done, and whose id is new:
    larger than the id of every stored task and than every id the table
    has handed out before. The task is stored. *)
Theorem create_task_returns_new_task getenv w t s :
  operational w t -> has_room t 1 -> valid_title s ->
  exists r,
    snd (serve (decorated_app getenv) (POST_tasks (Some s)) w)
    = mkResponse 201 (JSON (dict_of_row r))
    /\ title r = s
    /\ done r = 0
    /\ (forall r0, r0 ∈ rows t -> id r0 < id r)
    /\ seq t < id r
    /\ disk (store (fst (serve (decorated_app getenv) (POST_tasks (Some s)) w)))
       = Some (with_row t r).
Proof.
  intros (Hd & Hf & Hwf) Hroom Hv.
  destruct (serve_create_task getenv w t s Hd Hf Hroom Hv) as [Hs Hr].
  exists (new_row t s (now w)). rewrite Hs, Hr. cbn.
  repeat split; [|lia].
  intros r0 H0. apply max_id_bound in H0. lia.
Qed.

Lemma create_task_returns_new_task_witness :
  exists r,
    snd (serve (decorated_app no_env) (POST_tasks (Some accented_title))
               (world_with (Some two_tasks) []))
    = mkResponse 201 (JSON (dict_of_row r))
    /\ title r = accented_title
    /\ done r = 0
    /\ (forall r0, r0 ∈ rows two_tasks -> id r0 < id r)
    /\ seq two_tasks < id r
    /\ disk (store (fst (serve (decorated_app no_env)
                               (POST_tasks (Some accented_title))
                               (world_with (Some two_tasks) []))))
       = Some (with_row two_tasks r).
Proof.
  apply (create_task_returns_new_task no_env _ two_tasks accented_title).
  - exact operational_two_tasks.
  - vm_compute. discriminate.
  - unfold valid_title. rewrite (proj1 len_accented_title). lia.
Defined.

(** C4, as stated, fails: a body whose title is the number 5 has a title
    that is neither absent nor empty nor longer than 200 characters, and
    yet it is refused with status 422, the field being declared [str]. *)
Lemma create_task_refuses_number_title :
  ~ absent_empty_or_long (Some (JInt 5))
  /\ status_code (snd (serve (decorated_app no_env) (POST_body (Some (JInt 5)))
                             (world_with (Some two_tasks) [])))
     = 422.
Proof.
  split.
  - intros [].
  - vm_compute. reflexivity.
Qed.

(** C4, amended: creating a task is refused with status 422 exactly when
    the body has no title, a title that is not a string, an empty one, or
    one of more than 200 characters, and then the store is as before;
    otherwise the answer is 201 with the new task, which is stored. *)
Theorem create_task_validation getenv w t v :
  operational w t -> has_room t 1 ->
  (status_code (snd (serve (decorated_app getenv) (POST_body v) w)) = 422
   <-> absent_empty_or_long v \/ not_a_string v)
  /\ (absent_empty_or_long v \/ not_a_string v ->
      store (fst (serve (decorated_app getenv) (POST_body v) w)) = store w)
  /\ (~ (absent_empty_or_long v \/ not_a_string v) ->
      exists s r,
        v = Some (JStr s)
        /\ snd (serve (decorated_app getenv) (POST_body v) w)
           = mkResponse 201 (JSON (dict_of_row r))
        /\ title r = s /\ done r = 0
        /\ disk (store (fst (serve (decorated_app getenv) (POST_body v) w)))
           = Some (with_row t r)).
Proof.
  intros (Hd & Hf & Hwf) Hroom.
  destruct (body_cases v) as [Hi|(s & -> & Hv)].
  - destruct (serve_refused_title getenv w v Hi) as [Hs Hr].
    repeat split; try done.
  - destruct (serve_create_task getenv w t s Hd Hf Hroom Hv) as [Hs Hr].
    assert (Hn := valid_not_refused s Hv).
    change (POST_body (Some (JStr s))) with (POST_tasks (Some s)).
    rewrite Hs, Hr. cbn [status_code]. repeat split; try done.
    intros _. exists s, (new_row t s (now w)). repeat split.
Qed.

Lemma create_task_validation_witness :
  (status_code (snd (serve (decorated_app no_env) (POST_body (Some (JStr accented_title)))
                           (world_with (Some two_tasks) []))) = 422
   <-> absent_empty_or_long (Some (JStr accented_title))
       \/ not_a_string (Some (JStr accented_title)))
  /\ (absent_empty_or_long (Some (JStr accented_title))
      \/ not_a_string (Some (JStr accented_title)) ->
      store (fst (serve (decorated_app no_env) (POST_body (Some (JStr accented_title)))
                        (world_with (Some two_tasks) [])))
      = store (world_with (Some two_tasks) []))
  /\ (~ (absent_empty_or_long (Some (JStr accented_title))
         \/ not_a_string (Some (JStr accented_title))) ->
      exists s r,
        Some (JStr accented_title) = Some (JStr s)
        /\ snd (serve (decorated_app no_env) (POST_body (Some (JStr accented_title)))
                      (world_with (Some two_tasks) []))
           = mkResponse 201 (JSON (dict_of_row r))
        /\ title r = s /\ done r = 0
        /\ disk (store (fst (serve (decorated_app no_env)
                                   (POST_body (Some (JStr accented_title)))
                                   (world_with (Some two_tasks) []))))
           = Some (with_row two_tasks r)).
Proof.
  apply (create_task_validation no_env _ two_tasks (Some (JStr accented_title))).
  - exact operational_two_tasks.
  - vm_compute. discriminate.
Defined.

Lemma create_all_run getenv ttls :
  forall w t,
    operational w t -> has_room t (Z.of_nat (length ttls)) -> Forall valid_title ttls ->
    exists created t',
      snd (create_all (decorated_app getenv) ttls w)
      = map (fun r => mkResponse 201 (JSON (dict_of_row r))) created
      /\ map title created = ttls
      /\ operational (fst (create_all (decorated_app getenv) ttls w)) t'
      /\ rows t' = rows t ++ created.
Proof.
  induction ttls as [|s ttls IH]; intros w t Hop Hroom Hv.
  - exists [], t. cbn. rewrite app_nil_r. auto.
  - apply Forall_cons in Hv as [Hs Hv].
    assert (Hroom1 : has_room t 1).
    { unfold has_room in *. cbn [length] in Hroom. lia. }
    assert (Hroom' : has_room (with_row t (new_row t s (now w))) (Z.of_nat (length ttls))).
    { apply has_room_with_row. unfold has_room in *. cbn [length] in Hroom. lia. }
    destruct Hop as (Hd & Hf & Hwf).
    destruct (serve_create_task getenv w t s Hd Hf Hroom1 Hs) as [Hst Hr].
    cbn [create_all].
    destruct (serve (decorated_app getenv) (POST_tasks (Some s)) w) as [w1 resp].
    cbn [fst snd] in Hst, Hr.
    assert (Hop1 : operational w1 (with_row t (new_row t s (now w)))).
    { unfold operational. rewrite Hst. cbn.
      repeat split; apply wf_table_with_row; done. }
    destruct (IH w1 _ Hop1 Hroom' Hv) as (created & t' & Hresp & Htitles & Hop' & Hrows).
    destruct (create_all (decorated_app getenv) ttls w1) as [w2 rs].
    cbn [fst snd] in *.
    exists (new_row t s (now w) :: created), t'. cbn [map fst snd].
    repeat split; try (apply Hop').
    + now rewrite Hr, Hresp.
    + now rewrite Htitles.
    + rewrite Hrows. cbn. now rewrite <- app_assoc.
Qed.

(** C5: in every state of the store, and so after any number of creations,
    listing answers 200 with all the stored tasks, the created ones
    included, each once, in strictly descending order of their ids. *)
Theorem list_tasks_lists_all getenv w t ttls :
  operational w t -> has_room t (Z.of_nat (length ttls)) -> Forall valid_title ttls ->
  exists created listed,
    snd (create_all (decorated_app getenv) ttls w)
    = map (fun r => mkResponse 201 (JSON (dict_of_row r))) created
    /\ map title created = ttls
    /\ snd (serve (decorated_app getenv) GET_tasks
                  (fst (create_all (decorated_app getenv) ttls w)))
       = mkResponse 200 (JSON (JArr (map dict_of_row listed)))
    /\ listed ≡ₚ rows t ++ created
    /\ StronglySorted id_desc listed.
Proof.
  intros Hop Hroom Hv.
  destruct (create_all_run getenv ttls w t Hop Hroom Hv)
    as (created & t' & Hresp & Htitles & (Hd & Hf & Hnd & _) & Hrows).
  destruct (serve_list_tasks getenv _ t' Hd Hf) as [_ Hr].
  exists created, (order_by_id_desc (rows t')). repeat split; try done.
  - rewrite <- Hrows. apply order_by_id_desc_perm.
  - now apply order_by_id_desc_sorted.
Qed.

Lemma list_tasks_lists_all_witness :
  exists created listed,
    snd (create_all (decorated_app no_env) ["plan"; "build"]%string
                    (world_with (Some two_tasks) []))
    = map (fun r => mkResponse 201 (JSON (dict_of_row r))) created
    /\ map title created = ["plan"; "build"]%string
    /\ snd (serve (decorated_app no_env) GET_tasks
                  (fst (create_all (decorated_app no_env) ["plan"; "build"]%string
                                   (world_with (Some two_tasks) []))))
       = mkResponse 200 (JSON (JArr (map dict_of_row listed)))
    /\ listed ≡ₚ rows two_tasks ++ created
    /\ StronglySorted id_desc listed.
Proof.
  apply (list_tasks_lists_all no_env _ two_tasks).
  - exact operational_two_tasks.
  - vm_compute. discriminate.
  - repeat constructor.
Defined.

(** C6, as the code has it: for every task id that fits a signed 64-bit
    integer, marking done answers 404 with the body
    [{"detail": "Task not found"}] exactly when no stored task has the id;
    otherwise it sets [done] on the task and answers 200 with the task as
    updated. *)
Theorem mark_done_found_or_404 getenv w t task_id :
  operational w t -> in_range task_id ->
  (status_code (snd (serve (decorated_app getenv) (PATCH_done task_id) w)) = 404
   <-> forall r, r ∈ rows t -> id r <> task_id)
  /\ ((forall r, r ∈ rows t -> id r <> task_id) ->
      snd (serve (decorated_app getenv) (PATCH_done task_id) w)
      = mkResponse 404 (JSON (JObj [("detail"%string, JStr "Task not found")])))
  /\ ((exists r, r ∈ rows t /\ id r = task_id) ->
      exists r0,
        r0 ∈ rows t /\ id r0 = task_id
        /\ snd (serve (decorated_app getenv) (PATCH_done task_id) w)
           = mkResponse 200 (JSON (dict_of_row (mkRow task_id (title r0) 1 (created_at r0))))
        /\ disk (store (fst (serve (decorated_app getenv) (PATCH_done task_id) w)))
           = Some (with_done t task_id)
        /\ fetch (with_done t task_id) task_id
           = Some (mkRow task_id (title r0) 1 (created_at r0))).
Proof.
  intros (Hd & Hf & Hwf) Hn.
  destruct (decide (rowcount task_id (rows t) = 0%nat)) as [Hc|Hc].
  - destruct (serve_mark_done_missing getenv w t task_id Hd Hf Hn Hc) as [Hs Hr].
    rewrite rowcount_zero in Hc. rewrite Hr. repeat split; try done.
    intros (r & Hin & Hid). now destruct (Hc r Hin).
  - destruct (fetch_with_done t task_id Hc) as (r0 & Hin & Hid & Hfetch).
    destruct (serve_mark_done_found getenv w t task_id _ Hd Hf Hn Hfetch) as [Hs Hr].
    rewrite Hs, Hr. cbn. repeat split.
    + discriminate.
    + intros H. now destruct (H r0 Hin).
    + intros H. now destruct (H r0 Hin).
    + intros _. exists r0. repeat split; done.
Qed.

Lemma mark_done_found_or_404_witness :
  (status_code (snd (serve (decorated_app no_env) (PATCH_done 2)
                           (world_with (Some two_tasks) []))) = 404
   <-> forall r, r ∈ rows two_tasks -> id r <> 2)
  /\ ((forall r, r ∈ rows two_tasks -> id r <> 2) ->
      snd (serve (decorated_app no_env) (PATCH_done 2) (world_with (Some two_tasks) []))
      = mkResponse 404 (JSON (JObj [("detail"%string, JStr "Task not found")])))
  /\ ((exists r, r ∈ rows two_tasks /\ id r = 2) ->
      exists r0,
        r0 ∈ rows two_tasks /\ id r0 = 2
        /\ snd (serve (decorated_app no_env) (PATCH_done 2) (world_with (Some two_tasks) []))
           = mkResponse 200 (JSON (dict_of_row (mkRow 2 (title r0) 1 (created_at r0))))
        /\ disk (store (fst (serve (decorated_app no_env) (PATCH_done 2)
                                   (world_with (Some two_tasks) []))))
           = Some (with_done two_tasks 2)
        /\ fetch (with_done two_tasks 2) 2
           = Some (mkRow 2 (title r0) 1 (created_at r0))).
Proof.
  apply (mark_done_found_or_404 no_env _ two_tasks 2).
  - exact operational_two_tasks.
  - vm_compute. split; discriminate.
Defined.

(** C6, as stated, fails: an id one past the largest 64-bit integer is
    the id of no stored task, and yet the answer is 500, not 404. *)
Lemma mark_done_beyond_int64 :
  (forall r, r ∈ rows (mkTable [] 0) -> id r <> 9223372036854775808)
  /\ status_code (snd (serve (decorated_app no_env) (PATCH_done 9223372036854775808)
                             (world_with (Some (mkTable [] 0)) [])))
     = 500.
Proof.
  split.
  - intros r H. inversion H.
  - vm_compute. reflexivity.
Qed.

(** C7: marking a stored task done a second time answers as the first
    time did, 200 with the task and [done] set, and leaves the database as
    the first call left it. *)
Theorem mark_done_idempotent getenv w t task_id :
  operational w t -> (exists r, r ∈ rows t /\ id r = task_id) ->
  let first := serve (decorated_app getenv) (PATCH_done task_id) w in
  let second := serve (decorated_app getenv) (PATCH_done task_id) (fst first) in
  exists r,
    snd first = mkResponse 200 (JSON (dict_of_row r))
    /\ snd second = mkResponse 200 (JSON (dict_of_row r))
    /\ id r = task_id /\ done r = 1
    /\ disk (store (fst second)) = disk (store (fst first)).
Proof.
  intros (Hd & Hf & Hwf) Hex first second.
  assert (Hn : in_range task_id).
  { destruct Hex as (r & Hin & <-). destruct Hwf as [_ Hr].
    exact (proj1 (Forall_forall _ _) Hr r Hin). }
  apply (proj2 (rowcount_pos _ _)) in Hex.
  destruct (fetch_with_done t task_id Hex) as (r0 & Hin & Hid & Hfetch).
  destruct (serve_mark_done_found getenv w t task_id _ Hd Hf Hn Hfetch) as [Hs Hr].
  fold first in Hs, Hr.
  assert (Hd1 : disk (store (fst first)) = Some (with_done t task_id)) by now rewrite Hs.
  assert (Hf1 : faults (store (fst first)) = []) by now rewrite Hs.
  assert (Hfetch1 : fetch (with_done (with_done t task_id) task_id) task_id
                    = Some (mkRow task_id (title r0) 1 (created_at r0))).
  { unfold fetch, with_done in *. cbn in *. now rewrite map_set_done_idem. }
  destruct (serve_mark_done_found getenv (fst first) _ task_id _ Hd1 Hf1 Hn Hfetch1)
    as [Hs2 Hr2].
  fold second in Hs2, Hr2.
  exists (mkRow task_id (title r0) 1 (created_at r0)).
  rewrite Hr, Hr2, Hs2, Hd1. cbn. repeat split.
  unfold with_done. cbn. now rewrite map_set_done_idem.
Qed.

Lemma mark_done_idempotent_witness :
  let first := serve (decorated_app no_env) (PATCH_done 1) (world_with (Some two_tasks) []) in
  let second := serve (decorated_app no_env) (PATCH_done 1) (fst first) in
  exists r,
    snd first = mkResponse 200 (JSON (dict_of_row r))
    /\ snd second = mkResponse 200 (JSON (dict_of_row r))
    /\ id r = 1 /\ done r = 1
    /\ disk (store (fst second)) = disk (store (fst first)).
Proof.
  apply (mark_done_idempotent no_env _ two_tasks 1).
  - exact operational_two_tasks.
  - exists (mkRow 1 "write report" 0 "2024-01-01 00:00:00"). split; [left|reflexivity].
Defined.

(** * In any world, failures included *)

Lemma handler_releases h w :
  wp (run_handler h)
     (fun o w' => raised_by_store o = false ->
                  conns (store w') = delete (opened (store w)) (conns (store w))) w.
Proof.
  explicit_world w.
  destruct h; unfold run_handler, health, list_tasks, create_task, mark_done.
  all: repeat wp_step.
  all: try discriminate.
  all: intros _; rewrite ?delete_insert_eq; reflexivity.
Qed.

(** C2, as the code has it: whenever a handler (health, list, create,
    mark-done) ends without a store call having raised, by returning or,
    for mark-done, by raising its 404, the connection it opened is closed:
    the open connections are those of before, less the handle it was
    given. *)
Theorem connection_closed_unless_store_raises h w :
  raised_by_store (snd (run_handler h w)) = false ->
  conns (store (fst (run_handler h w))) = delete (opened (store w)) (conns (store w)).
Proof. exact (wp_elim _ _ _ (handler_releases h w)). Qed.

Lemma connection_closed_unless_store_raises_witness :
  conns (store (fst (run_handler (mark_done_handler 999999)
                                 (world_with (Some two_tasks) []))))
  = delete (opened (store (world_with (Some two_tasks) [])))
           (conns (store (world_with (Some two_tasks) []))).
Proof.
  apply (connection_closed_unless_store_raises (mark_done_handler 999999)).
  vm_compute. reflexivity.
Defined.

(** C2, as stated, fails: when [SELECT 1] raises, the health handler
    leaves through the exception and its connection, handle 0, stays
    open. *)
Lemma health_leaves_connection_open :
  snd (health (world_with (Some two_tasks) [false; true]))
  = Raise (OperationalError "database is locked")
  /\ conns (store (world_with (Some two_tasks) [false; true])) !! 0%nat = None
  /\ conns (store (fst (health (world_with (Some two_tasks) [false; true])))) !! 0%nat
     = Some None.
Proof. repeat split; vm_compute; reflexivity. Qed.

Lemma handler_keeps_done h w :
  wp (run_handler h)
     (fun _ w' => forall i, task_done (disk (store w)) i -> task_done (disk (store w')) i) w.
Proof.
  explicit_world w.
  destruct h; unfold run_handler, health, list_tasks, create_task, mark_done.
  all: repeat wp_step.
  all: intros i Hi;
    first [ exact Hi
          | exact (task_done_app _ _ _ _ Hi)
          | exact (task_done_set_done _ _ _ Hi) ].
Qed.

Lemma mark_done_404_keeps_disk n w :
  wp (mark_done n)
     (fun o w' => (exists s d, o = Raise (HTTPException s d)) ->
                  disk (store w') = disk (store w)) w.
Proof.
  explicit_world w. unfold mark_done.
  repeat wp_step.
  all: try (intros (s & d' & [=]); fail).
  all: intros _; rewrite map_set_done_none by done; now destruct t.
Qed.

Lemma json_response_fst status c w : fst (json_response status c w) = fst (c w).
Proof. unfold json_response, bind, ret. now destruct (c w) as [w' [j|e]]. Qed.

Lemma serve_keeps_done getenv op w i :
  task_done (disk (store w)) i ->
  task_done (disk (store (fst (serve (decorated_app getenv) (request_of op) w)))) i.
Proof.
  intros Hi.
  destruct (serve_decorated getenv (request_of op) w) as [-> _].
  destruct (time_perf_counter_frame w) as (Hs & _).
  rewrite <- Hs in Hi. revert Hi. generalize (fst (time_perf_counter w)) as w0.
  intros w0 Hi. destruct op as [| |ttl|n]; cbn [request_of].
  - rewrite router_GET_health, json_response_fst.
    exact (wp_elim _ _ _ (handler_keeps_done health_handler w0) i Hi).
  - rewrite router_GET_tasks, json_response_fst.
    exact (wp_elim _ _ _ (handler_keeps_done list_tasks_handler w0) i Hi).
  - rewrite router_POST_tasks.
    destruct (title_cases ttl) as [Hinv|(s & -> & Hv)].
    + destruct (validate_invalid ttl Hinv) as [errors ->]. exact Hi.
    + cbn [option_map]. rewrite validate_valid by done. unfold bind, ret.
      rewrite json_response_fst.
      exact (wp_elim _ _ _ (handler_keeps_done (create_task_handler _) w0) i Hi).
  - rewrite router_PATCH_done, json_response_fst.
    exact (wp_elim _ _ _ (handler_keeps_done (mark_done_handler n) w0) i Hi).
Qed.

Lemma run_ops_keeps_done getenv ops :
  forall w i,
    task_done (disk (store w)) i ->
    task_done (disk (store (run_ops (decorated_app getenv) ops w))) i.
Proof.
  unfold run_ops.
  induction ops as [|op ops IH]; intros w i Hi; [exact Hi|].
  cbn [foldl]. apply IH. exact (serve_keeps_done getenv op w i Hi).
Qed.

(** C8: over any sequence of create, list, mark-done and health
    requests, failing ones included, a task that is done in some state is
    done in every state that follows. *)
Theorem done_never_reverts getenv ops later w i :
  task_done (disk (store (run_ops (decorated_app getenv) ops w))) i ->
  task_done (disk (store (run_ops (decorated_app getenv) (ops ++ later) w))) i.
Proof.
  intros Hi. unfold run_ops in *. rewrite foldl_app.
  exact (run_ops_keeps_done getenv later _ i Hi).
Qed.

Lemma done_never_reverts_witness :
  task_done
    (disk (store (run_ops (decorated_app no_env)
                          ([MarkDone 1]
                           ++ [CreateTask (Some "plan"%string); ListTasks; MarkDone 7;
                               CreateTask None; Health; MarkDone 1])
                          (world_with (Some two_tasks) [false; false; false; false; true]))))
    1.
Proof.
  apply (done_never_reverts no_env [MarkDone 1]).
  exists (with_done two_tasks 1), (mkRow 1 "write report" 1 "2024-01-01 00:00:00").
  split; [vm_compute; reflexivity|].
  split; [left|]. split; reflexivity.
Defined.

(** C10: when marking done answers 404, the database is as it was: the
    same rows, field by field, and the same sequence. *)
Theorem mark_done_404_changes_nothing getenv w task_id :
  status_code (snd (serve (decorated_app getenv) (PATCH_done task_id) w)) = 404 ->
  disk (store (fst (serve (decorated_app getenv) (PATCH_done task_id) w)))
  = disk (store w).
Proof.
  destruct (serve_decorated getenv (PATCH_done task_id) w) as [-> ->].
  destruct (time_perf_counter_frame w) as (Hs & _). rewrite <- Hs.
  rewrite router_PATCH_done.
  assert (H := wp_elim _ _ _ (mark_done_404_keeps_disk task_id (fst (time_perf_counter w)))).
  rewrite json_response_fst. cbn beta in H.
  unfold json_response, bind, ret.
  destruct (mark_done task_id (fst (time_perf_counter w))) as [w1 [j|e]]; cbn in *.
  - discriminate.
  - destruct e; cbn; try discriminate. intros _. apply H. eauto.
Qed.

Lemma mark_done_404_changes_nothing_witness :
  disk (store (fst (serve (decorated_app no_env) (PATCH_done 999999)
                          (world_with (Some two_tasks) []))))
  = disk (store (world_with (Some two_tasks) [])).
Proof.
  apply (mark_done_404_changes_nothing no_env).
  vm_compute. reflexivity.
Defined.

(** * The middleware *)

(** C9: for every request that goes through [observability_mw], whatever
    is downstream: the outcome is passed on unchanged (the response
    returned, or the exception raised again); the request counter grows by
    one at the labels of the request and of the status, which is the
    status of the response, or 500 when an exception came; one duration is
    observed at the labels of the request; one line is logged; nothing else
    is counted or observed. *)
Theorem observability_mw_records_once request call_next w :
  let w0 := fst (time_perf_counter w) in
  let w1 := fst (call_next request w0) in
  let o := snd (call_next request w0) in
  let w2 := fst (observability_mw request call_next w) in
  let duration := (next_reading w1 - next_reading w)%Q in
  let counted := (method request, path request, status_label o) in
  let timed := (method request, path request) in
  snd (observability_mw request call_next w) = o
  /\ REQ_COUNT (registry w2) !! counted
     = Some (N.succ (default 0%N (REQ_COUNT (registry w1) !! counted)))
  /\ (forall l, l <> counted -> REQ_COUNT (registry w2) !! l = REQ_COUNT (registry w1) !! l)
  /\ REQ_LAT (registry w2) !! timed
     = Some (default [] (REQ_LAT (registry w1) !! timed) ++ [duration])
  /\ (forall l, l <> timed -> REQ_LAT (registry w2) !! l = REQ_LAT (registry w1) !! l)
  /\ log w2
     = log w1 ++ [request_line (method request) (path request) (status_logged o) duration]
  /\ store w2 = store w1
  /\ (forall e, o = Raise e -> status_label o = "500"%string /\ status_logged o = 500)
  /\ (forall response,
        o = Return response ->
        status_label o = str (status_code response)
        /\ status_logged o = status_code response).
Proof.
  cbn zeta. rewrite observability_mw_run. cbn [fst snd registry REQ_COUNT REQ_LAT log store].
  split; [reflexivity|].
  split; [apply lookup_insert_eq|].
  split; [intros l Hl; now apply lookup_insert_ne|].
  split; [apply lookup_insert_eq|].
  split; [intros l Hl; now apply lookup_insert_ne|].
  split; [reflexivity|].
  split; [reflexivity|].
  split; [intros e ->|intros response ->]; split; reflexivity.
Qed.

(** * What the module exports *)

(** C1 fails on the code: the application the module exports is the one
    made on its last lines, which has none of the routes; a GET on /health
    is answered 404 by the router and the health handler is not called. *)
Theorem exported_app_health_not_found getenv w :
  serve (exported_app getenv) GET_health w
  = (w, mkResponse 404 (JSON (JObj [("detail"%string, JStr "Not Found")]))).
Proof.
  destruct (exported_app_routes getenv) as (Hr & Hm & _).
  unfold serve, server_error_middleware, call_next_of, exception_middleware, router.
  rewrite Hr, Hm. reflexivity.
Qed.

(** The object the routes were put on would have answered. *)
Lemma decorated_app_health_ok getenv w :
  faults (store w) = [] ->
  snd (serve (decorated_app getenv) GET_health w)
  = mkResponse 200 (JSON (JObj [("status"%string, JStr "ok"); ("db"%string, JStr "ok")])).
Proof. intros Hf. now destruct (serve_health getenv w Hf). Qed.

(** * More of the script *)

(** ** The startup hook *)

Lemma init_db_any w :
  wp init_db
     (fun o w' =>
        (disk (store w') = disk (store w)
         \/ (disk (store w) = None /\ disk (store w') = Some (mkTable [] 0)))
        /\ (o = Return tt ->
            disk (store w') = Some (default (mkTable [] 0) (disk (store w)))
            /\ conns (store w') = delete (opened (store w)) (conns (store w)))) w.
Proof.
  explicit_world w. unfold init_db.
  repeat wp_step.
  all: rewrite ?delete_insert_eq; split; [auto|]; try discriminate; auto.
Qed.

Lemma lifespan_decorated getenv w :
  lifespan_startup (decorated_app getenv) w
  = (fst (init_db w),
     match snd (init_db w) with Return _ => Return tt | Raise e => Raise e end).
Proof.
  rewrite decorated_app_eq. unfold lifespan_startup.
  cbn [on_startup get patch post add_api_route middleware_http
       on_event_startup new_FastAPI List.app run_all].
  unfold startup, bind, ret. now destruct (init_db w) as [w' [[]|e]].
Qed.

(** X1: in any world, failures included, the startup event leaves an
    existing table as it is, rows and sequence; it can only add the empty
    table to a database that has none. When it returns, the table exists
    and the connection it used is closed. *)
Theorem startup_keeps_tasks getenv w :
  let w' := fst (lifespan_startup (decorated_app getenv) w) in
  let o := snd (lifespan_startup (decorated_app getenv) w) in
  (forall t, disk (store w) = Some t -> disk (store w') = Some t)
  /\ (disk (store w) = None ->
      disk (store w') = None \/ disk (store w') = Some (mkTable [] 0))
  /\ (o = Return tt ->
      disk (store w') = Some (default (mkTable [] 0) (disk (store w)))
      /\ conns (store w') = delete (opened (store w)) (conns (store w))).
Proof.
  cbn zeta. rewrite lifespan_decorated. cbn [fst snd].
  destruct (wp_elim _ _ _ (init_db_any w)) as [Hd Hr].
  split; [|split].
  - intros t Ht. destruct Hd as [->|[Hn _]]; congruence.
  - intros Hn. destruct Hd as [->|[_ ->]]; auto.
  - destruct (snd (init_db w)) as [[]|e]; [|discriminate]. intros _. now apply Hr.
Qed.

(** X2: with a store that does not fail, a second startup succeeds and
    changes nothing in the database; both connections are closed. *)
Theorem startup_idempotent getenv w :
  faults (store w) = [] ->
  let w1 := fst (lifespan_startup (decorated_app getenv) w) in
  let w2 := fst (lifespan_startup (decorated_app getenv) w1) in
  snd (lifespan_startup (decorated_app getenv) w1) = Return tt
  /\ disk (store w2) = disk (store w1)
  /\ conns (store w2)
     = delete (S (opened (store w))) (delete (opened (store w)) (conns (store w))).
Proof.
  intros Hf. cbn zeta. rewrite !lifespan_decorated. cbn [fst snd].
  rewrite (init_db_run w Hf). cbn [fst snd].
  rewrite init_db_run by reflexivity. cbn.
  destruct (disk (store w)); repeat split.
Qed.

Lemma startup_idempotent_witness :
  let w1 := fst (lifespan_startup (decorated_app no_env) (world_with None [])) in
  let w2 := fst (lifespan_startup (decorated_app no_env) w1) in
  snd (lifespan_startup (decorated_app no_env) w1) = Return tt
  /\ disk (store w2) = disk (store w1)
  /\ conns (store w2)
     = delete (S (opened (store (world_with None []))))
              (delete (opened (store (world_with None [])))
                      (conns (store (world_with None [])))).
Proof. apply (startup_idempotent no_env (world_with None [])). reflexivity. Defined.

(** ** What a request can do to the database *)

Lemma health_reads_only w :
  wp health (fun _ w' => disk (store w') = disk (store w)) w.
Proof. explicit_world w. unfold health. repeat wp_step; reflexivity. Qed.

Lemma list_tasks_reads_only w :
  wp list_tasks (fun _ w' => disk (store w') = disk (store w)) w.
Proof. explicit_world w. unfold list_tasks. repeat wp_step; reflexivity. Qed.

Lemma create_task_any payload w :
  valid_title (payload_title payload) ->
  wp (create_task payload)
     (fun o w' =>
        Change (now w) (disk (store w)) (disk (store w'))
        /\ (forall j, o = Return j ->
            exists t, disk (store w) = Some t
              /\ disk (store w')
                 = Some (with_row t (new_row t (payload_title payload) (now w)))
              /\ j = dict_of_row (new_row t (payload_title payload) (now w)))
        /\ (raised_by_store o = false -> exists j, o = Return j)) w.
Proof.
  intros Hv. explicit_world w. unfold create_task.
  repeat wp_step.
  all: try match goal with
      | H : head (filter _ (_ ++ [_])) = _ |- _ =>
          rewrite inserted_row in H
            by (range_facts; pose proof (max_id_nonneg (rows t)); lia);
          inversion H; subst
      end.
  all: repeat split; try discriminate; eauto using Unchanged.
  all: try (apply (Inserted _ _ t (payload_title payload)); [reflexivity|exact Hv|];
            unfold has_room; range_facts; lia).
  all: intros j [= <-]; eexists; repeat split; reflexivity.
Qed.

Lemma mark_done_any n w :
  wp (mark_done n)
     (fun o w' =>
        Change (now w) (disk (store w)) (disk (store w'))
        /\ (forall j, o = Return j ->
            exists t r, disk (store w) = Some t
              /\ disk (store w') = Some (with_done t n)
              /\ fetch (with_done t n) n = Some r
              /\ j = dict_of_row r)
        /\ (forall s d, o = Raise (HTTPException s d) ->
            s = 404 /\ d = "Task not found"%string
            /\ exists t, disk (store w) = Some t /\ rowcount n (rows t) = 0%nat)) w.
Proof.
  explicit_world w. unfold mark_done.
  repeat wp_step.
  all: repeat split; try discriminate; eauto using Unchanged.
  all: try (apply (Updated _ _ t n); [reflexivity|];
            unfold in_range; range_facts; lia).
  all: try (intros s d' [= <- <-]; eauto).
  all: try (intros j [= <-]; eexists _, _; repeat split; eassumption).
  all: congruence.
Qed.

(** Whatever the request, the router ends in one of the handlers or
    leaves the world alone. *)
Lemma route_request_elim (P : World -> Prop) request w :
  P w ->
  forall rs partial all,
    (forall r ps, r ∈ rs -> P (fst (run_endpoint r ps request w))) ->
    P (fst (route_request rs partial all request w)).
Proof.
  intros Hw. induction rs as [|r rs IH]; intros partial all Hrs.
  - cbn. destruct partial; [exact Hw|].
    destruct (_ && _); exact Hw.
  - cbn [route_request]. destruct (matches r request).
    + apply IH. intros r' ps Hr'. apply Hrs. now right.
    + apply IH. intros r' ps Hr'. apply Hrs. now right.
    + apply Hrs. left.
Qed.

Lemma router_decorated_elim (P : World -> Prop) getenv request w :
  P w ->
  P (fst (health w)) ->
  P (fst (list_tasks w)) ->
  (forall payload, valid_title (payload_title payload) -> P (fst (create_task payload w))) ->
  (forall n, P (fst (mark_done n w))) ->
  P (fst (router (decorated_app getenv) request w)).
Proof.
  intros Hw Hh Hl Hc Hm. unfold router. apply route_request_elim; [exact Hw|].
  intros r ps Hr. rewrite decorated_app_eq in Hr.
  cbn [get patch post add_api_route middleware_http on_event_startup new_FastAPI
       routes List.app] in Hr.
  repeat (apply elem_of_cons in Hr as [->|Hr]); try (inversion Hr; fail);
    unfold run_endpoint; cbn [endpoint route_status]; try exact Hw.
  - now rewrite json_response_fst.
  - now rewrite json_response_fst.
  - destruct (body_cases (body_title request)) as [Hi|(s & -> & Hv)].
    + destruct (validate_refused _ Hi) as [errors ->]. exact Hw.
    + rewrite validate_valid by done. unfold bind, ret.
      rewrite json_response_fst. now apply Hc.
  - destruct (lookup_param _ ps) as [v|]; [|exact Hw].
    destruct (parse_int v); [|exact Hw].
    rewrite json_response_fst. apply Hm.
Qed.

Lemma serve_Change getenv request w :
  Change (now w) (disk (store w))
         (disk (store (fst (serve (decorated_app getenv) request w)))).
Proof.
  destruct (serve_decorated getenv request w) as [-> _].
  destruct (time_perf_counter_frame w) as (Hs & Hn & _).
  rewrite <- Hs, <- Hn.
  apply (router_decorated_elim
           (fun w' => Change (now _) (disk (store _)) (disk (store w')))).
  - constructor.
  - rewrite (wp_elim _ _ _ (health_reads_only _)). constructor.
  - rewrite (wp_elim _ _ _ (list_tasks_reads_only _)). constructor.
  - intros payload Hv. exact (proj1 (wp_elim _ _ _ (create_task_any payload _ Hv))).
  - intros n. exact (proj1 (wp_elim _ _ _ (mark_done_any n _))).
Qed.

(** X3: whatever the request (any method, path and body) and whatever
    fails, serving it does at most one thing to the table: nothing, or it
    appends one row, with a title of 1 to 200 characters, [done] 0 and the
    next id, or it sets [done] on the rows of one id. A database without
    the table stays without it. *)
Theorem one_write_per_request getenv request w :
  let d' := disk (store (fst (serve (decorated_app getenv) request w))) in
  match disk (store w) with
  | None => d' = None
  | Some t =>
      d' = Some t
      \/ (exists s, valid_title s /\ has_room t 1
                    /\ d' = Some (with_row t (new_row t s (now w))))
      \/ (exists n, in_range n /\ d' = Some (with_done t n))
  end.
Proof.
  cbn zeta. destruct (serve_Change getenv request w) as [|t s Hd Hv Hroom|t n Hd Hn].
  - destruct (disk (store w)); auto.
  - rewrite Hd. right. left. eauto.
  - rewrite Hd. right. right. eauto.
Qed.

(** X4: serving GET /health or GET /tasks never changes the database,
    and GET /metrics does not touch the store at all (no connection is
    opened), in any world. *)
Theorem reads_change_nothing getenv w :
  disk (store (fst (serve (decorated_app getenv) GET_health w))) = disk (store w)
  /\ disk (store (fst (serve (decorated_app getenv) GET_tasks w))) = disk (store w)
  /\ store (fst (serve (decorated_app getenv) GET_metrics w)) = store w.
Proof.
  destruct (time_perf_counter_frame w) as (Hs & _).
  repeat split.
  - destruct (serve_decorated getenv GET_health w) as [-> _].
    rewrite router_GET_health, json_response_fst, <- Hs.
    exact (wp_elim _ _ _ (health_reads_only _)).
  - destruct (serve_decorated getenv GET_tasks w) as [-> _].
    rewrite router_GET_tasks, json_response_fst, <- Hs.
    exact (wp_elim _ _ _ (list_tasks_reads_only _)).
  - destruct (serve_decorated getenv GET_metrics w) as [-> _].
    rewrite router_GET_metrics. exact Hs.
Qed.

(** X5: a 201 is only answered once the row is committed: if POST
    /tasks is answered 201, in any world and whatever JSON value the body
    gives as title, that value was a string of 1 to 200 characters, the
    database holds the new row and the body is that row. *)
Theorem created_means_stored getenv w v :
  status_code (snd (serve (decorated_app getenv) (POST_body v) w)) = 201 ->
  exists t s,
    v = Some (JStr s) /\ valid_title s /\ disk (store w) = Some t
    /\ disk (store (fst (serve (decorated_app getenv) (POST_body v) w)))
       = Some (with_row t (new_row t s (now w)))
    /\ snd (serve (decorated_app getenv) (POST_body v) w)
       = mkResponse 201 (JSON (dict_of_row (new_row t s (now w)))).
Proof.
  destruct (serve_decorated getenv (POST_body v) w) as [-> ->].
  destruct (time_perf_counter_frame w) as (Hs & Hn & _).
  rewrite <- Hs, <- Hn. generalize (fst (time_perf_counter w)) as w0. intros w0.
  rewrite router_POST_body.
  destruct (body_cases v) as [Hi|(s & -> & Hv)].
  - destruct (validate_refused v Hi) as [errors ->]. unfold bind, raise. cbn.
    discriminate.
  - rewrite validate_valid by done. unfold bind, ret, json_response.
    destruct (wp_elim _ _ _ (create_task_any (mkTaskCreate s) w0 Hv)) as (_ & Hret & Hexn).
    unfold bind, ret.
    destruct (create_task (mkTaskCreate s) w0) as [w1 [j|e]]; cbn in *.
    + intros _. destruct (Hret j eq_refl) as (t & Hd & Hd' & ->).
      exists t, s. split; [done|]. split; [exact Hv|]. repeat split; done.
    + destruct e; cbn in *; try discriminate;
        intros _; destruct Hexn as [j [=]]; reflexivity.
Qed.

Lemma created_means_stored_witness :
  exists t s,
    Some (JStr accented_title) = Some (JStr s) /\ valid_title s
    /\ disk (store (world_with (Some two_tasks) [])) = Some t
    /\ disk (store (fst (serve (decorated_app no_env)
                               (POST_body (Some (JStr accented_title)))
                               (world_with (Some two_tasks) []))))
       = Some (with_row t (new_row t s (now (world_with (Some two_tasks) []))))
    /\ snd (serve (decorated_app no_env) (POST_body (Some (JStr accented_title)))
                  (world_with (Some two_tasks) []))
       = mkResponse 201
           (JSON (dict_of_row (new_row t s (now (world_with (Some two_tasks) []))))).
Proof.
  apply (created_means_stored no_env (world_with (Some two_tasks) [])
           (Some (JStr accented_title))).
  vm_compute. reflexivity.
Defined.

(** X6: a 200 to PATCH /tasks/{id}/done is only answered once the update
    is committed: in any world, the database then holds the table with
    [done] set on that id, and the body is the row of that id, done. *)
Theorem marked_means_done getenv w task_id :
  status_code (snd (serve (decorated_app getenv) (PATCH_done task_id) w)) = 200 ->
  exists t r,
    disk (store w) = Some t
    /\ disk (store (fst (serve (decorated_app getenv) (PATCH_done task_id) w)))
       = Some (with_done t task_id)
    /\ fetch (with_done t task_id) task_id = Some r
    /\ id r = task_id /\ done r = 1
    /\ snd (serve (decorated_app getenv) (PATCH_done task_id) w)
       = mkResponse 200 (JSON (dict_of_row r)).
Proof.
  destruct (serve_decorated getenv (PATCH_done task_id) w) as [-> ->].
  destruct (time_perf_counter_frame w) as (Hs & Hn & _).
  rewrite <- Hs. generalize (fst (time_perf_counter w)) as w0. intros w0.
  rewrite router_PATCH_done. unfold json_response, bind, ret.
  destruct (wp_elim _ _ _ (mark_done_any task_id w0)) as (_ & Hret & Hexn).
  destruct (mark_done task_id w0) as [w1 [j|e]]; cbn in *.
  - intros _. destruct (Hret j eq_refl) as (t & r & Hd & Hd' & Hf & ->).
    assert (Hc := fetch_with_done_Some t task_id r Hf).
    destruct (fetch_with_done t task_id Hc) as (r0 & _ & _ & Hf0).
    rewrite Hf in Hf0. injection Hf0 as ->.
    eexists t, _. repeat split; done.
  - destruct e; cbn; try discriminate.
    intros H200. destruct (Hexn _ _ eq_refl) as (-> & _). discriminate.
Qed.

Lemma marked_means_done_witness :
  exists t r,
    disk (store (world_with (Some two_tasks) [])) = Some t
    /\ disk (store (fst (serve (decorated_app no_env) (PATCH_done 1)
                               (world_with (Some two_tasks) []))))
       = Some (with_done t 1)
    /\ fetch (with_done t 1) 1 = Some r
    /\ id r = 1 /\ done r = 1
    /\ snd (serve (decorated_app no_env) (PATCH_done 1) (world_with (Some two_tasks) []))
       = mkResponse 200 (JSON (dict_of_row r)).
Proof.
  apply (marked_means_done no_env (world_with (Some two_tasks) []) 1).
  vm_compute. reflexivity.
Defined.

(** ** Over any sequence of requests *)

Lemma set_done_title n r : title (set_done n r) = title r.
Proof. unfold set_done. now destruct (id r =? n). Qed.

Lemma set_done_created_at n r : created_at (set_done n r) = created_at r.
Proof. unfold set_done. now destruct (id r =? n). Qed.

Lemma Change_stored stamp d d' i ttl st :
  Change stamp d d' -> stored d i ttl st -> stored d' i ttl st.
Proof.
  intros [|t s -> Hv Hroom|t n -> Hn]; [done| |];
    intros (t' & r & [= <-] & Hr & Hi & Ht & Hc).
  - exists (with_row t (new_row t s stamp)), r. repeat split; try done.
    cbn. apply elem_of_app. now left.
  - exists (with_done t n), (set_done n r). repeat split.
    + cbn. apply list_elem_of_In, in_map, list_elem_of_In, Hr.
    + now rewrite set_done_id.
    + now rewrite set_done_title.
    + now rewrite set_done_created_at.
Qed.

Lemma Change_titles_valid stamp d d' :
  Change stamp d d' -> titles_valid d -> titles_valid d'.
Proof.
  intros [|t s -> Hv Hroom|t n -> Hn] Hd; [done| |]; intros t' [= <-]; cbn.
  - apply Forall_app. split; [now apply Hd|].
    constructor; [exact Hv|constructor].
  - apply Forall_forall. intros x Hx.
    apply list_elem_of_In, in_map_iff in Hx as (r0 & <- & Hin).
    rewrite set_done_title.
    exact (proj1 (Forall_forall _ _) (Hd t eq_refl) r0 (proj2 (list_elem_of_In _ _) Hin)).
Qed.

Lemma Change_wf stamp d d' :
  Change stamp d d' ->
  (forall t, d = Some t -> wf_table t) -> (forall t, d' = Some t -> wf_table t).
Proof.
  intros [|t s -> Hv Hroom|t n -> Hn] Hd; [done| |]; intros t' [= <-].
  - apply wf_table_with_row; auto.
  - apply wf_table_with_done; auto.
Qed.

Lemma Change_grows stamp d d' t :
  Change stamp d d' -> d = Some t ->
  exists t', d' = Some t'
    /\ (length (rows t) <= length (rows t'))%nat
    /\ seq t <= seq t'.
Proof.
  intros [|t0 s -> Hv Hroom|t0 n -> Hn] Hd.
  - exists t. repeat split; [done|lia..].
  - injection Hd as ->. eexists. split; [reflexivity|]. cbn.
    rewrite length_app. cbn. split; lia.
  - injection Hd as ->. eexists. split; [reflexivity|]. cbn.
    rewrite length_map. split; lia.
Qed.

Section Sequences.
Variable getenv : string -> option string.

Lemma run_requests_ind (P : World -> Prop) reqs :
  (forall request w, P w -> P (fst (serve (decorated_app getenv) request w))) ->
  forall w, P w -> P (run_requests (decorated_app getenv) reqs w).
Proof.
  intros Hstep. unfold run_requests.
  induction reqs as [|request reqs IH]; intros w Hw; [exact Hw|].
  cbn [foldl]. apply IH, Hstep, Hw.
Qed.

(** X7: a stored task stays stored with its id, title and creation time
    over any sequence of requests, failing ones included: nothing deletes
    or renames a task. *)
Theorem tasks_persist reqs w i ttl st :
  stored (disk (store w)) i ttl st ->
  stored (disk (store (run_requests (decorated_app getenv) reqs w))) i ttl st.
Proof.
  apply (run_requests_ind (fun w => stored (disk (store w)) i ttl st)).
  intros request w0. apply Change_stored with (stamp := now w0), serve_Change.
Qed.

(** X8: if every stored title has 1 to 200 characters (of one byte or
    of several), that is still so after any sequence of requests: no
    request stores a title the validation would refuse. *)
Theorem titles_stay_valid reqs w :
  titles_valid (disk (store w)) ->
  titles_valid (disk (store (run_requests (decorated_app getenv) reqs w))).
Proof.
  apply (run_requests_ind (fun w => titles_valid (disk (store w)))).
  intros request w0. apply Change_titles_valid with (stamp := now w0), serve_Change.
Qed.

(** X9: the ids of the stored tasks stay pairwise distinct and within
    64 bits over any sequence of requests. *)
Theorem ids_stay_unique reqs w :
  (forall t, disk (store w) = Some t -> wf_table t) ->
  forall t, disk (store (run_requests (decorated_app getenv) reqs w)) = Some t ->
            wf_table t.
Proof.
  apply (run_requests_ind (fun w => forall t, disk (store w) = Some t -> wf_table t)).
  intros request w0. apply Change_wf with (stamp := now w0), serve_Change.
Qed.

(** X10: over any sequence of requests the table is never dropped, the
    number of rows never goes down and the sequence AUTOINCREMENT keeps
    never goes back. *)
Theorem table_only_grows reqs w t :
  disk (store w) = Some t ->
  exists t', disk (store (run_requests (decorated_app getenv) reqs w)) = Some t'
    /\ (length (rows t) <= length (rows t'))%nat
    /\ seq t <= seq t'.
Proof.
  intros Hd.
  apply (run_requests_ind
           (fun w => exists t', disk (store w) = Some t'
                     /\ (length (rows t) <= length (rows t'))%nat /\ seq t <= seq t')).
  - intros request w0 (t0 & Hd0 & Hl & Hs).
    destruct (Change_grows _ _ _ t0 (serve_Change getenv request w0) Hd0)
      as (t' & Hd' & Hl' & Hs').
    exists t'. repeat split; [done|lia..].
  - exists t. repeat split; [done|lia..].
Qed.
End Sequences.

Lemma tasks_persist_witness :
  stored (disk (store (run_requests (decorated_app no_env)
                         [PATCH_done 1; POST_tasks (Some "plan"%string);
                          mkRequest "DELETE" "/tasks/1" None; GET_tasks]
                         (world_with (Some two_tasks) [false; false; true]))))
         1 "write report" "2024-01-01 00:00:00".
Proof.
  apply (tasks_persist no_env).
  exists two_tasks, (mkRow 1 "write report" 0 "2024-01-01 00:00:00").
  split; [reflexivity|]. split; [left|]. repeat split.
Defined.

Lemma titles_stay_valid_witness :
  titles_valid (disk (store (run_requests (decorated_app no_env)
                               [POST_tasks (Some EmptyString);
                                POST_body (Some (JInt 5));
                                POST_tasks (Some accented_title); PATCH_done 2]
                               (world_with (Some two_tasks) [])))).
Proof.
  apply (titles_stay_valid no_env).
  intros t [= <-]. repeat constructor.
Defined.

Lemma ids_stay_unique_witness :
  wf_table (with_row two_tasks (new_row two_tasks "plan" "2024-01-01 00:00:00")).
Proof.
  apply (ids_stay_unique no_env [POST_tasks (Some "plan"%string); GET_health]
                         (world_with (Some two_tasks) [])).
  - intros t [= <-]. exact (proj2 (proj2 operational_two_tasks)).
  - vm_compute. reflexivity.
Defined.

Lemma table_only_grows_witness :
  exists t',
    disk (store (run_requests (decorated_app no_env)
                   [POST_tasks (Some "plan"%string); PATCH_done 5; GET_metrics]
                   (world_with (Some two_tasks) [])))
    = Some t'
    /\ (length (rows two_tasks) <= length (rows t'))%nat
    /\ seq two_tasks <= seq t'.
Proof.
  apply (table_only_grows no_env). reflexivity.
Defined.

(** ** Metrics and log, for any request *)

Lemma handler_observations h w :
  wp (run_handler h) (fun _ w' => same_observations w w' /\ now w' = now w) w.
Proof.
  explicit_world w.
  destruct h; unfold run_handler, health, list_tasks, create_task, mark_done.
  all: repeat wp_step.
  all: repeat split.
Qed.

Lemma exception_middleware_fst inner request w :
  fst (exception_middleware inner request w) = fst (inner request w).
Proof.
  unfold exception_middleware. destruct (inner request w) as [w' [r|[]]]; reflexivity.
Qed.

Lemma router_observations getenv request w :
  same_observations w (fst (router (decorated_app getenv) request w)).
Proof.
  apply (router_decorated_elim (same_observations w)).
  - repeat split.
  - exact (proj1 (wp_elim _ _ _ (handler_observations health_handler w))).
  - exact (proj1 (wp_elim _ _ _ (handler_observations list_tasks_handler w))).
  - intros p _.
    exact (proj1 (wp_elim _ _ _ (handler_observations (create_task_handler p) w))).
  - intros n.
    exact (proj1 (wp_elim _ _ _ (handler_observations (mark_done_handler n) w))).
Qed.

Lemma serve_observations getenv request w :
  let w' := fst (serve (decorated_app getenv) request w) in
  let response := snd (serve (decorated_app getenv) request w) in
  let counted := (method request, path request, str (status_code response)) in
  let timed := (method request, path request) in
  REQ_COUNT (registry w')
  = <[counted := N.succ (default 0%N (REQ_COUNT (registry w) !! counted))]>
      (REQ_COUNT (registry w))
  /\ (exists duration,
        REQ_LAT (registry w')
        = <[timed := default [] (REQ_LAT (registry w) !! timed) ++ [duration]]>
            (REQ_LAT (registry w))
        /\ log w'
           = log w ++ [request_line (method request) (path request)
                                    (status_code response) duration]).
Proof.
  cbn zeta. unfold serve, server_error_middleware.
  rewrite call_next_decorated, observability_mw_run.
  destruct (time_perf_counter_frame w) as (_ & _ & Hrg & Hlg).
  set (w0 := fst (time_perf_counter w)) in *.
  assert (Hobs := router_observations getenv request w0).
  rewrite <- (exception_middleware_fst (router (decorated_app getenv))) in Hobs.
  destruct Hobs as (Hrg1 & Hlg1 & _).
  destruct (exception_middleware (router (decorated_app getenv)) request w0)
    as [w1 [r|e]]; cbn [fst snd] in *;
    cbn [registry REQ_COUNT REQ_LAT log status_label status_logged status_code];
    rewrite Hrg1, Hlg1, Hrg, Hlg; (split; [reflexivity|eexists; split; reflexivity]).
Qed.

(** X11: every request served, whatever its method, path and body and
    whatever the handler does, is counted exactly once, under the status
    the client receives (so 404 and 422 under their own status, and 500
    when the handler raised); one duration is observed and one line is
    logged with that status; no other counter or histogram moves. No
    handler touches the metrics. *)
Theorem every_request_counted_once getenv request w :
  let w' := fst (serve (decorated_app getenv) request w) in
  let response := snd (serve (decorated_app getenv) request w) in
  let counted := (method request, path request, str (status_code response)) in
  let timed := (method request, path request) in
  REQ_COUNT (registry w') !! counted
  = Some (N.succ (default 0%N (REQ_COUNT (registry w) !! counted)))
  /\ (forall l, l <> counted -> REQ_COUNT (registry w') !! l = REQ_COUNT (registry w) !! l)
  /\ (exists duration,
        REQ_LAT (registry w') !! timed
        = Some (default [] (REQ_LAT (registry w) !! timed) ++ [duration])
        /\ log w'
           = log w ++ [request_line (method request) (path request)
                                    (status_code response) duration])
  /\ (forall l, l <> timed -> REQ_LAT (registry w') !! l = REQ_LAT (registry w) !! l).
Proof.
  cbn zeta.
  destruct (serve_observations getenv request w) as (-> & duration & -> & ->).
  split; [apply lookup_insert_eq|].
  split; [intros l Hl; now apply lookup_insert_ne|].
  split; [exists duration; split; [apply lookup_insert_eq|reflexivity]|].
  intros l Hl; now apply lookup_insert_ne.
Qed.

(** X12: after any sequence of requests the log has one line more per
    request served. *)
Theorem one_log_line_per_request getenv reqs w :
  length (log (run_requests (decorated_app getenv) reqs w))
  = (length (log w) + length reqs)%nat.
Proof.
  unfold run_requests. revert w.
  induction reqs as [|request reqs IH]; intros w; cbn [foldl length]; [lia|].
  rewrite IH.
  destruct (serve_observations getenv request w) as (_ & duration & _ & ->).
  rewrite length_app. cbn. lia.
Qed.

(** X13: GET /metrics answers 200 with the registry as it is when the
    handler runs, so without this very request, and does not touch the
    store; the request is counted afterwards, under GET, /metrics, 200. *)
Theorem metrics_scrape getenv w :
  snd (serve (decorated_app getenv) GET_metrics w)
  = mkResponse 200 (Exposition (registry w))
  /\ store (fst (serve (decorated_app getenv) GET_metrics w)) = store w
  /\ REQ_COUNT (registry (fst (serve (decorated_app getenv) GET_metrics w)))
     !! ("GET"%string, "/metrics"%string, "200"%string)
     = Some (N.succ (default 0%N (REQ_COUNT (registry w)
                                  !! ("GET"%string, "/metrics"%string, "200"%string)))).
Proof.
  assert (Hr : snd (serve (decorated_app getenv) GET_metrics w)
               = mkResponse 200 (Exposition (registry w))).
  { destruct (serve_decorated getenv GET_metrics w) as [_ ->].
    destruct (time_perf_counter_frame w) as (_ & _ & Hrg & _).
    rewrite router_GET_metrics. cbn. now rewrite Hrg. }
  split; [exact Hr|]. split.
  - destruct (serve_decorated getenv GET_metrics w) as [-> _].
    rewrite router_GET_metrics. apply time_perf_counter_frame.
  - destruct (serve_observations getenv GET_metrics w) as (-> & _).
    rewrite Hr. apply lookup_insert_eq.
Qed.

(** ** The health endpoint *)

Lemma health_outcome w :
  snd (health w)
  = if store_fails_within 2 w
    then Raise (OperationalError "database is locked")
    else Return (JObj [("status"%string, JStr "ok"); ("db"%string, JStr "ok")]).
Proof.
  destruct w as [[d c o f] rg lg pc nw].
  unfold store_fails_within, health, connect, execute_select_1, view, close, bind, ret,
    store_call.
  destruct f as [|[|] [|[|] f]]; cbn; rewrite ?lookup_insert_eq; reflexivity.
Qed.

(** X14: GET /health answers 200 with [{status: ok, db: ok}] exactly
    when neither [connect] nor [SELECT 1] fails, and 500 otherwise;
    whether the table exists and what it holds plays no part. *)
Theorem health_status getenv w :
  snd (serve (decorated_app getenv) GET_health w)
  = if store_fails_within 2 w
    then mkResponse 500 (PlainText "Internal Server Error")
    else mkResponse 200 (JSON (JObj [("status"%string, JStr "ok"); ("db"%string, JStr "ok")])).
Proof.
  destruct (serve_decorated getenv GET_health w) as [_ ->].
  destruct (time_perf_counter_frame w) as (Hs & _).
  rewrite router_GET_health. unfold json_response, bind, ret.
  assert (H := health_outcome (fst (time_perf_counter w))).
  unfold store_fails_within in *. rewrite Hs in H.
  destruct (health (fst (time_perf_counter w))) as [w1 o]. cbn in H. subst o.
  now destruct (existsb _ _).
Qed.

(** ** Before startup has run *)

Lemma list_tasks_no_table w :
  disk (store w) = None -> faults (store w) = [] ->
  list_tasks w = (left_open w, Raise (OperationalError "no such table: tasks")).
Proof.
  intros Hd Hf. explicit_world w. unfold list_tasks.
  apply run_eq. repeat wp_step. reflexivity.
Qed.

Lemma create_task_no_table payload w :
  disk (store w) = None -> faults (store w) = [] ->
  create_task payload w = (left_open w, Raise (OperationalError "no such table: tasks")).
Proof.
  intros Hd Hf. explicit_world w. unfold create_task.
  apply run_eq. repeat wp_step. reflexivity.
Qed.

Lemma mark_done_no_table n w :
  disk (store w) = None -> faults (store w) = [] ->
  mark_done n w = (left_open w, Raise (OperationalError "no such table: tasks")).
Proof.
  intros Hd Hf. explicit_world w. unfold mark_done.
  apply run_eq. repeat wp_step. reflexivity.
Qed.

Lemma left_open_store w w0 :
  store w0 = store w -> store (left_open w0) = store (left_open w).
Proof. intros H. unfold left_open. cbn. now rewrite H. Qed.

(** X15: on a database where startup has not created the table, with
    nothing else failing: listing, creating with a valid title and marking
    done are each answered 500, leave the database without the table and
    leave their connection open; health still answers 200. No handler
    creates the table. *)
Theorem no_table_no_tasks getenv w :
  disk (store w) = None -> faults (store w) = [] ->
  status_code (snd (serve (decorated_app getenv) GET_health w)) = 200
  /\ (status_code (snd (serve (decorated_app getenv) GET_tasks w)) = 500
      /\ store (fst (serve (decorated_app getenv) GET_tasks w)) = store (left_open w))
  /\ (forall s, valid_title s ->
      status_code (snd (serve (decorated_app getenv) (POST_tasks (Some s)) w)) = 500
      /\ store (fst (serve (decorated_app getenv) (POST_tasks (Some s)) w))
         = store (left_open w))
  /\ (forall n,
      status_code (snd (serve (decorated_app getenv) (PATCH_done n) w)) = 500
      /\ store (fst (serve (decorated_app getenv) (PATCH_done n) w))
         = store (left_open w)).
Proof.
  intros Hd Hf.
  destruct (time_perf_counter_frame w) as (Hs & _).
  assert (Hd0 : disk (store (fst (time_perf_counter w))) = None) by congruence.
  assert (Hf0 : faults (store (fst (time_perf_counter w))) = []) by congruence.
  split; [|split; [|split]].
  - destruct (serve_health getenv w Hf) as [_ ->]. reflexivity.
  - destruct (serve_decorated getenv GET_tasks w) as [-> ->].
    rewrite router_GET_tasks. unfold json_response, bind.
    rewrite list_tasks_no_table by done. cbn. split; [done|now apply left_open_store].
  - intros s Hv.
    destruct (serve_decorated getenv (POST_tasks (Some s)) w) as [-> ->].
    rewrite router_POST_tasks. cbn [option_map]. rewrite validate_valid by done.
    unfold json_response, bind, ret.
    rewrite create_task_no_table by done. cbn. split; [done|now apply left_open_store].
  - intros n.
    destruct (serve_decorated getenv (PATCH_done n) w) as [-> ->].
    rewrite router_PATCH_done. unfold json_response, bind.
    rewrite mark_done_no_table by done. cbn. split; [done|now apply left_open_store].
Qed.

Lemma no_table_no_tasks_witness :
  status_code (snd (serve (decorated_app no_env) GET_health (world_with None []))) = 200
  /\ (status_code (snd (serve (decorated_app no_env) GET_tasks (world_with None []))) = 500
      /\ store (fst (serve (decorated_app no_env) GET_tasks (world_with None [])))
         = store (left_open (world_with None [])))
  /\ (forall s, valid_title s ->
      status_code (snd (serve (decorated_app no_env) (POST_tasks (Some s))
                              (world_with None []))) = 500
      /\ store (fst (serve (decorated_app no_env) (POST_tasks (Some s))
                           (world_with None [])))
         = store (left_open (world_with None [])))
  /\ (forall n,
      status_code (snd (serve (decorated_app no_env) (PATCH_done n)
                              (world_with None []))) = 500
      /\ store (fst (serve (decorated_app no_env) (PATCH_done n) (world_with None [])))
         = store (left_open (world_with None []))).
Proof. apply (no_table_no_tasks no_env (world_with None [])); reflexivity. Defined.

(** ** The exported application, again *)

Lemma append_String_assoc (s : string) c t u :
  (s +:+ String c t) +:+ u = s +:+ String c (t +:+ u).
Proof.
  induction s as [|a s IH]; [reflexivity|].
  change (String a ((s +:+ String c t) +:+ u) = String a (s +:+ String c (t +:+ u))).
  now rewrite IH.
Qed.

Lemma ends_with_slash_app (s : string) c t :
  ends_with_slash (s +:+ String c t) = ends_with_slash (String c t).
Proof.
  induction s as [|a s IH]; [reflexivity|].
  rewrite <- IH. destruct s; reflexivity.
Qed.

Lemma exported_serve getenv request w :
  serve (exported_app getenv) request w
  = server_error_middleware
      (exception_middleware
         (route_request (routes (new_FastAPI None)) false (routes (new_FastAPI None))))
      request w.
Proof.
  unfold serve, call_next_of, exception_middleware, server_error_middleware, router.
  now destruct (exported_app_routes getenv) as (-> & -> & _).
Qed.

Lemma exported_PATCH_done getenv n w :
  serve (exported_app getenv) (PATCH_done n) w
  = (w, mkResponse 404 (JSON (JObj [("detail"%string, JStr "Not Found")]))).
Proof.
  rewrite exported_serve.
  unfold server_error_middleware, exception_middleware.
  assert (Hs := split_slash_PATCH_done (str n) (str_no_slash n)).
  assert (He : ends_with_slash ("/tasks/" +:+ str n +:+ "/done") = false).
  { change ("/tasks/" +:+ str n +:+ "/done")
      with (("/tasks/" +:+ str n) +:+ String "/" "done").
    now rewrite ends_with_slash_app. }
  assert (Ht : split_slash (("/tasks/" +:+ str n +:+ "/done") +:+ "/")
               = [EmptyString; "tasks"; str n; "done"; EmptyString]%string).
  { change (("/tasks/" +:+ str n +:+ "/done") +:+ "/")
      with (EmptyString +:+ String "/" ("tasks" +:+ String "/"
              ((str n +:+ String "/" "done") +:+ "/"))).
    rewrite append_String_assoc.
    change ("done" +:+ "/") with ("done" +:+ String "/" EmptyString).
    now rewrite !split_slash_prefix by (reflexivity || apply str_no_slash). }
  unfold PATCH_done.
  cbn [new_FastAPI routes route_request].
  unfold matches, match_path, toggle_slash. cbn [route_path path method methods].
  rewrite Hs, He, Ht. reflexivity.
Qed.

(** X16: the application the module exports answers 404 Not Found to
    every request of the five documented endpoints, whatever the title or
    the task id, without touching the world (no handler runs, nothing is
    counted or logged), and its startup event does nothing: it never
    creates the table. *)
Theorem exported_app_serves_nothing getenv op w :
  serve (exported_app getenv) (request_of op) w
  = (w, mkResponse 404 (JSON (JObj [("detail"%string, JStr "Not Found")])))
  /\ serve (exported_app getenv) GET_metrics w
     = (w, mkResponse 404 (JSON (JObj [("detail"%string, JStr "Not Found")])))
  /\ lifespan_startup (exported_app getenv) w = (w, Return tt).
Proof.
  repeat split.
  - destruct op as [| |ttl|n]; cbn [request_of];
      [rewrite exported_serve; reflexivity..|apply exported_PATCH_done].
  - rewrite exported_serve. reflexivity.
  - unfold lifespan_startup. now destruct (exported_app_routes getenv) as (_ & _ & ->).
Qed.

(** X17: of the two tests modelled, run as the repository runs them, on
    the exported application: [test_mark_done_404] passes in every world,
    though no handler is ever called, and [test_health] fails in every
    world. *)
Theorem tests_on_exported_app getenv w :
  test_mark_done_404 (exported_app getenv) w = true
  /\ test_health (exported_app getenv) w = false.
Proof.
  unfold test_mark_done_404, test_health.
  change (mkRequest "PATCH" "/tasks/999999/done" None) with (PATCH_done 999999).
  rewrite exported_PATCH_done, exported_serve. split; reflexivity.
Qed.

(** ** Tracing *)

(** X18: tracing is set up on the exported application only, never on
    the one that has the routes. It is on when OTEL_TRACING_ENABLED is
    unset or reads "true" in any mix of cases, with the service name and
    the endpoint of the environment or their defaults; any other value
    leaves the application without tracing. *)
Theorem tracing_configuration getenv :
  tracing (decorated_app getenv) = None
  /\ (getenv "OTEL_TRACING_ENABLED"%string = None ->
      tracing (exported_app getenv)
      = Some (default "devops-fastapi-project"%string (getenv "OTEL_SERVICE_NAME"%string),
              default "http://localhost:4318/v1/traces"%string
                      (getenv "OTEL_EXPORTER_OTLP_ENDPOINT"%string)))
  /\ (forall v, getenv "OTEL_TRACING_ENABLED"%string = Some v ->
      tracing (exported_app getenv)
      = if String.eqb (lower v) "true"
        then Some (default "devops-fastapi-project"%string
                           (getenv "OTEL_SERVICE_NAME"%string),
                   default "http://localhost:4318/v1/traces"%string
                           (getenv "OTEL_EXPORTER_OTLP_ENDPOINT"%string))
        else None).
Proof.
  split; [now rewrite decorated_app_eq|].
  unfold exported_app, main_py, object_at, on_app, assign_app. cbn.
  unfold setup_tracing. split.
  - intros ->. reflexivity.
  - intros v ->.
    change (default "true"%string (Some v)) with v.
    now destruct (String.eqb (lower v) "true").
Qed.

(** ** The ids of new tasks *)

Lemma create_all_ids getenv ttls :
  forall w t,
    operational w t -> has_room t (Z.of_nat (length ttls)) -> Forall valid_title ttls ->
    exists created t',
      snd (create_all (decorated_app getenv) ttls w)
      = map (fun r => mkResponse 201 (JSON (dict_of_row r))) created
      /\ map title created = ttls
      /\ map id created
         = seqZ (Z.max (seq t) (max_id (rows t)) + 1) (Z.of_nat (length ttls))
      /\ Forall (fun r => done r = 0) created
      /\ operational (fst (create_all (decorated_app getenv) ttls w)) t'
      /\ rows t' = rows t ++ created.
Proof.
  induction ttls as [|s ttls IH]; intros w t Hop Hroom Hv.
  - exists [], t. cbn. rewrite app_nil_r. auto 10.
  - apply Forall_cons in Hv as [Hs Hv].
    assert (Hroom1 : has_room t 1).
    { unfold has_room in *. cbn [length] in Hroom. lia. }
    assert (Hroom' : has_room (with_row t (new_row t s (now w))) (Z.of_nat (length ttls))).
    { apply has_room_with_row. unfold has_room in *. cbn [length] in Hroom. lia. }
    destruct Hop as (Hd & Hf & Hwf).
    destruct (serve_create_task getenv w t s Hd Hf Hroom1 Hs) as [Hst Hr].
    cbn [create_all].
    destruct (serve (decorated_app getenv) (POST_tasks (Some s)) w) as [w1 resp].
    cbn [fst snd] in Hst, Hr.
    assert (Hop1 : operational w1 (with_row t (new_row t s (now w)))).
    { unfold operational. rewrite Hst. cbn.
      repeat split; apply wf_table_with_row; done. }
    destruct (IH w1 _ Hop1 Hroom' Hv)
      as (created & t' & Hresp & Htitles & Hids & Hdone & Hop' & Hrows).
    destruct (create_all (decorated_app getenv) ttls w1) as [w2 rs].
    cbn [fst snd] in *.
    exists (new_row t s (now w) :: created), t'. cbn [map fst snd].
    split; [now rewrite Hr, Hresp|].
    split; [now rewrite Htitles|].
    split.
    { rewrite Hids. cbn [length]. rewrite (seqZ_cons _ (Z.of_nat (S _))) by lia.
      cbn [with_row new_row rows seq id]. rewrite max_id_app.
      unfold new_row. cbn [id]. f_equal. f_equal; lia. }
    split; [constructor; [reflexivity|exact Hdone]|].
    split; [exact Hop'|].
    rewrite Hrows. cbn. now rewrite <- app_assoc.
Qed.

(** Rows stored in ascending order of id come back reversed. *)
Lemma insert_desc_last r l :
  Forall (fun x => id r < id x) l -> insert_desc r l = l ++ [r].
Proof.
  induction 1 as [|x l Hx Hl IH]; cbn; [reflexivity|].
  destruct (Z.leb_spec (id x) (id r)); [lia|]. now rewrite IH.
Qed.

Lemma order_by_id_desc_ascending l :
  StronglySorted (fun a b => id a < id b) l -> order_by_id_desc l = reverse l.
Proof.
  induction 1 as [|x l Hs IH Hx]; [reflexivity|].
  cbn [order_by_id_desc]. rewrite IH, reverse_cons.
  apply insert_desc_last. apply Forall_forall. intros y Hy.
  apply elem_of_reverse in Hy. rewrite reverse_involutive in Hy.
  exact (proj1 (Forall_forall _ _) Hx y Hy).
Qed.

Lemma seqZ_ascending (l : list Row) m n :
  map id l = seqZ m n -> StronglySorted (fun a b => id a < id b) l.
Proof.
  revert m n. induction l as [|x l IH]; intros m n H; [constructor|].
  destruct (Z.le_gt_cases n 0) as [Hn|Hn].
  - rewrite seqZ_nil in H by done. discriminate.
  - rewrite seqZ_cons in H by done. cbn in H. injection H as Hx Hl.
    constructor; [exact (IH _ _ Hl)|].
    apply Forall_forall. intros y Hy.
    assert (Hin : id y ∈ seqZ (Z.succ m) (Z.pred n)).
    { rewrite <- Hl. apply list_elem_of_In, in_map, list_elem_of_In, Hy. }
    apply elem_of_seqZ in Hin. lia.
Qed.

(** X19: on a store that works, tasks created one after the other get
    consecutive ids, starting one above the largest id the table has held;
    no id is given twice. *)
Theorem created_ids_consecutive getenv w t ttls :
  operational w t -> has_room t (Z.of_nat (length ttls)) -> Forall valid_title ttls ->
  exists created,
    snd (create_all (decorated_app getenv) ttls w)
    = map (fun r => mkResponse 201 (JSON (dict_of_row r))) created
    /\ map id created
       = seqZ (Z.max (seq t) (max_id (rows t)) + 1) (Z.of_nat (length ttls))
    /\ NoDup (map id created).
Proof.
  intros Hop Hroom Hv.
  destruct (create_all_ids getenv ttls w t Hop Hroom Hv)
    as (created & t' & Hresp & _ & Hids & _).
  exists created. repeat split; [done..|].
  rewrite Hids. apply NoDup_seqZ.
Qed.

Lemma created_ids_consecutive_witness :
  exists created,
    snd (create_all (decorated_app no_env) ["plan"; "build"]%string
                    (world_with (Some two_tasks) []))
    = map (fun r => mkResponse 201 (JSON (dict_of_row r))) created
    /\ map id created
       = seqZ (Z.max (seq two_tasks) (max_id (rows two_tasks)) + 1)
              (Z.of_nat (length ["plan"; "build"]%string))
    /\ NoDup (map id created).
Proof.
  apply (created_ids_consecutive no_env _ two_tasks).
  - exact operational_two_tasks.
  - vm_compute. discriminate.
  - repeat constructor.
Defined.

(** X20: on a new database, after the startup event, creating N tasks
    gives them the ids 1 to N, not done, and listing then answers 200 with
    those tasks in the reverse of the order of creation, newest first. *)
Theorem new_database_newest_first getenv w ttls :
  disk (store w) = None -> faults (store w) = [] ->
  Forall valid_title ttls -> Z.of_nat (length ttls) <= max_rowid ->
  let w1 := fst (lifespan_startup (decorated_app getenv) w) in
  let w2 := fst (create_all (decorated_app getenv) ttls w1) in
  exists created,
    snd (create_all (decorated_app getenv) ttls w1)
    = map (fun r => mkResponse 201 (JSON (dict_of_row r))) created
    /\ map title created = ttls
    /\ map id created = seqZ 1 (Z.of_nat (length ttls))
    /\ Forall (fun r => done r = 0) created
    /\ snd (serve (decorated_app getenv) GET_tasks w2)
       = mkResponse 200 (JSON (JArr (map dict_of_row (reverse created)))).
Proof.
  intros Hd Hf Hv Hn w1 w2.
  assert (Hop := startup_operational getenv w Hf Hd). fold w1 in Hop.
  destruct (create_all_ids getenv ttls w1 (mkTable [] 0) Hop) as
    (created & t' & Hresp & Htitles & Hids & Hdone & (Hd' & Hf' & _) & Hrows);
    [unfold has_room; cbn; lia|exact Hv|].
  fold w2 in Hd', Hf'. cbn in Hids, Hrows.
  exists created. repeat split; try done.
  destruct (serve_list_tasks getenv w2 t' Hd' Hf') as [_ ->].
  rewrite Hrows, (order_by_id_desc_ascending created); [reflexivity|].
  exact (seqZ_ascending _ _ _ Hids).
Qed.

Lemma new_database_newest_first_witness :
  let w1 := fst (lifespan_startup (decorated_app no_env) (world_with None [])) in
  let w2 := fst (create_all (decorated_app no_env) ["plan"; "build"]%string w1) in
  exists created,
    snd (create_all (decorated_app no_env) ["plan"; "build"]%string w1)
    = map (fun r => mkResponse 201 (JSON (dict_of_row r))) created
    /\ map title created = ["plan"; "build"]%string
    /\ map id created = seqZ 1 (Z.of_nat (length ["plan"; "build"]%string))
    /\ Forall (fun r => done r = 0) created
    /\ snd (serve (decorated_app no_env) GET_tasks w2)
       = mkResponse 200 (JSON (JArr (map dict_of_row (reverse created)))).
Proof.
  apply (new_database_newest_first no_env (world_with None [])).
  - reflexivity.
  - reflexivity.
  - repeat constructor.
  - vm_compute. discriminate.
Defined.
